(** * Resume screening utilities: a shallow embedding and its properties

    The development embeds the two utility modules of the repository,

      - [lecture_2/notebooks/resume_utils.py]  ([load_resumes], [analyze_resume])
      - [lecture_4/notebooks/agent_utils.py]   ([load_resumes],
        [structured_llm_call], the seven tools and [TOOL_REGISTRY]),

    and states the properties of the design document about them.

    Layout: module [Py] holds the fragment of Python the code runs on
    (values, exceptions, [str()], [repr()], subscripting, [json.dumps]);
    [Loader] holds [load_resumes]; [Gateway] the two functions that call the
    completion endpoint; [Tools] the action handlers, the registry and the
    object store their outcomes live in.  The theorems follow the
    definitions.

    Modelling boundary.  The standard library and [httpx] are not part of
    the repository.  What the network answers, what [json.loads] and
    [json.dumps] do, and whether [str()] of a value raises are inputs of the
    model (record [Gateway.Env]), so that every theorem about the gateway
    holds for every behaviour of them.  Module [Py] also holds what CPython
    does by default ([str_error], [json_dumps]: an int of more than 4300
    digits does not convert to text, [json] encodes no object of a foreign
    class); the concrete worlds of module [Examples] are built from it.
    A [str] is a Rocq [string], one [ascii] per character; this is exact
    for ASCII text, which is what every literal of the program is, and
    a statement about the length of an upper-cased key asks for an ASCII
    key.  A [float] is carried as the text [repr()] gives for it: the
    program forwards floats and never computes with them.  Interrupts
    ([KeyboardInterrupt], [SystemExit]) are not [Exception]s and are not
    modelled.  Building and closing the [httpx.Client] are taken not to
    raise. *)

From Stdlib Require Import ZArith String Ascii List Bool Lia.
From stdpp Require Import base tactics option list strings pretty gmap fin_maps.

Set Warnings "-register-all".

(* ===================================================================== *)
(** * Python values                                                        *)
(* ===================================================================== *)

Module Py.

(** A float, as the text [repr()] prints for it. *)
Definition float := string.

(** The values the program handles: what JSON decodes to, tuples, and
    [PyObject] for a value of a class that is none of these nor derived
    from one of them (a set, bytes, a function), given by its class name
    and its text.  The text is what [repr()] gives; the class is one that
    keeps [object.__str__], so that [str()] gives the same text. *)
Inductive PyVal : Type :=
| PyNone
| PyBool (b : bool)
| PyInt (n : Z)
| PyFloat (x : float)
| PyStr (s : string)
| PyList (items : list PyVal)
| PyTuple (items : list PyVal)
| PyDict (items : list (string * PyVal))
| PyObject (cls : string) (text : string).

(** A dict with [str] keys, in insertion order. *)
Definition dict := list (string * PyVal).

(** Lookup of a key in the insertion-ordered representation. *)
Fixpoint lookup_key {V} (l : list (string * V)) (key : string) : option V :=
  match l with
  | [] => None
  | (k, v) :: l' => if String.eqb k key then Some v else lookup_key l' key
  end.

Definition dict_get (d : dict) (key : string) : option PyVal := lookup_key d key.

Definition keys (d : dict) : list string := map fst d.

Definition is_none (v : PyVal) : bool :=
  match v with PyNone => true | _ => false end.

(** [type(v).__name__] *)
Definition type_name (v : PyVal) : string :=
  match v with
  | PyNone => "NoneType"
  | PyBool _ => "bool"
  | PyInt _ => "int"
  | PyFloat _ => "float"
  | PyStr _ => "str"
  | PyList _ => "list"
  | PyTuple _ => "tuple"
  | PyDict _ => "dict"
  | PyObject cls _ => cls
  end.

(** ** Characters *)

Definition chr (n : nat) : string := String (ascii_of_nat n) EmptyString.
Definition LF : string := chr 10.
Definition DQUOTE : ascii := ascii_of_nat 34.
Definition SQUOTE : ascii := ascii_of_nat 39.
Definition BACKSLASH : ascii := ascii_of_nat 92.

Definition hex_digit (n : nat) : string :=
  match n with
  | 0 => "0" | 1 => "1" | 2 => "2" | 3 => "3" | 4 => "4" | 5 => "5"
  | 6 => "6" | 7 => "7" | 8 => "8" | 9 => "9" | 10 => "a" | 11 => "b"
  | 12 => "c" | 13 => "d" | 14 => "e" | _ => "f"
  end%nat.

(** Two lower-case hex digits of a code point below 256. *)
Definition hex2 (n : nat) : string :=
  hex_digit (n / 16) +:+ hex_digit (n mod 16).

Fixpoint string_map (f : ascii → ascii) (s : string) : string :=
  match s with
  | EmptyString => EmptyString
  | String c s' => String (f c) (string_map f s')
  end.

Fixpoint string_flat_map (f : ascii → string) (s : string) : string :=
  match s with
  | EmptyString => EmptyString
  | String c s' => f c +:+ string_flat_map f s'
  end.

Fixpoint string_mem (c : ascii) (s : string) : bool :=
  match s with
  | EmptyString => false
  | String c' s' => Ascii.eqb c c' || string_mem c s'
  end.

(** [str.upper] on ASCII text: the letters [a] to [z] are mapped, every
    other character is kept.  Python also maps letters outside ASCII, some
    of them to more than one character; a text of ASCII characters is
    where this definition and [str.upper] agree. *)
Definition upper_char (c : ascii) : ascii :=
  let n := nat_of_ascii c in
  if (97 <=? n)%nat && (n <=? 122)%nat then ascii_of_nat (n - 32) else c.

Definition upper (s : string) : string := string_map upper_char s.

(** A text of ASCII characters only. *)
Fixpoint is_ascii (s : string) : bool :=
  match s with
  | EmptyString => true
  | String c s' => (nat_of_ascii c <? 128)%nat && is_ascii s'
  end.

(** ** [repr()] and [str()] *)

Definition repr_char (quote : ascii) (c : ascii) : string :=
  let n := nat_of_ascii c in
  if Ascii.eqb c quote || Ascii.eqb c BACKSLASH then String BACKSLASH (String c "")
  else if (n =? 9)%nat then String BACKSLASH "t"
  else if (n =? 10)%nat then String BACKSLASH "n"
  else if (n =? 13)%nat then String BACKSLASH "r"
  else if (n <? 32)%nat || (n =? 127)%nat then String BACKSLASH "x" +:+ hex2 n
  else if (n <? 127)%nat then String c ""
  else if (n <=? 160)%nat || (n =? 173)%nat then String BACKSLASH "x" +:+ hex2 n
  else String c "".

(** [repr(s)] for a str: single quotes, unless the text holds a single
    quote and no double quote. *)
Definition str_repr (s : string) : string :=
  let quote :=
    if string_mem SQUOTE s && negb (string_mem DQUOTE s) then DQUOTE else SQUOTE in
  String quote (string_flat_map (repr_char quote) s) +:+ String quote "".

(** The text of [repr(v)].  This is the text when [repr()] returns;
    whether it does for an int is the matter of the limit below. *)
Fixpoint py_repr (v : PyVal) : string :=
  match v with
  | PyNone => "None"
  | PyBool true => "True"
  | PyBool false => "False"
  | PyInt n => pretty n
  | PyFloat x => x
  | PyStr s => str_repr s
  | PyList items => "[" +:+ String.concat ", " (map py_repr items) +:+ "]"
  | PyTuple [item] => "(" +:+ py_repr item +:+ ",)"
  | PyTuple items => "(" +:+ String.concat ", " (map py_repr items) +:+ ")"
  | PyDict items =>
      "{" +:+ String.concat ", "
                (map (λ kv, str_repr (fst kv) +:+ ": " +:+ py_repr (snd kv)) items)
          +:+ "}"
  | PyObject _ text => text
  end.

(** [str(v)], which is what an f-string field [{v}] inserts, when it
    returns. *)
Definition py_str (v : PyVal) : string :=
  match v with
  | PyStr s => s
  | _ => py_repr v
  end.

(** ** Exceptions *)

(** The [Exception]s of the model.  [Raised cls msg] is one raised inside
    a library ([httpx], [json]): its class name and the text of
    [str(e)]. *)
Inductive Exception : Type :=
| KeyError (key : PyVal)
| IndexError (msg : string)
| TypeError (msg : string)
| ValueError (msg : string)
| AttributeError (msg : string)
| Raised (cls : string) (msg : string).

(** [str(e)]: a [KeyError] prints the repr of its key. *)
Definition exc_str (e : Exception) : string :=
  match e with
  | KeyError key => py_repr key
  | IndexError msg | TypeError msg | ValueError msg | AttributeError msg => msg
  | Raised _ msg => msg
  end.

(** The result of evaluating an expression: a value, or an exception on
    its way up. *)
Inductive Result (A : Type) : Type :=
| Ok (a : A)
| Raise (e : Exception).
Arguments Ok {A} a.
Arguments Raise {A} e.

#[export] Instance Result_ret : MRet Result := λ A a, Ok a.
#[export] Instance Result_bind : MBind Result := λ A B f r,
  match r with
  | Ok a => f a
  | Raise e => Raise e
  end.

Section MapM.
Context {A B : Type} (f : A → Result B).

(** Left to right; the first exception ends the traversal. *)
Fixpoint mapM (l : list A) : Result (list B) :=
  match l with
  | [] => Ok []
  | a :: l' =>
      match f a with
      | Raise e => Raise e
      | Ok b => match mapM l' with
                | Raise e => Raise e
                | Ok bs => Ok (b :: bs)
                end
      end
  end.
End MapM.

(** ** Subscripting *)

(** [v[key]] for a str [key]. *)
Definition getitem (v : PyVal) (key : string) : Result PyVal :=
  match v with
  | PyDict d =>
      match dict_get d key with
      | Some x => Ok x
      | None => Raise (KeyError (PyStr key))
      end
  | PyList _ => Raise (TypeError "list indices must be integers or slices, not str")
  | PyTuple _ => Raise (TypeError "tuple indices must be integers or slices, not str")
  | PyStr _ => Raise (TypeError "string indices must be integers, not 'str'")
  | _ => Raise (TypeError ("'" +:+ type_name v +:+ "' object is not subscriptable"))
  end.

(** [v[i]] for an index [i >= 0]. *)
Definition getitem_index (v : PyVal) (i : nat) : Result PyVal :=
  match v with
  | PyList items =>
      match items !! i with
      | Some x => Ok x
      | None => Raise (IndexError "list index out of range")
      end
  | PyTuple items =>
      match items !! i with
      | Some x => Ok x
      | None => Raise (IndexError "tuple index out of range")
      end
  | PyStr s =>
      match String.get i s with
      | Some c => Ok (PyStr (String c ""))
      | None => Raise (IndexError "string index out of range")
      end
  | PyDict _ => Raise (KeyError (PyInt (Z.of_nat i)))
  | _ => Raise (TypeError ("'" +:+ type_name v +:+ "' object is not subscriptable"))
  end.

(** [v.get(key, default)] *)
Definition get_default (v : PyVal) (key : string) (default : PyVal) : Result PyVal :=
  match v with
  | PyDict d => Ok (match dict_get d key with Some x => x | None => default end)
  | _ => Raise (AttributeError ("'" +:+ type_name v +:+ "' object has no attribute 'get'"))
  end.

(** ** The limit on converting an int to text *)

(** CPython converts an int of more than 4300 decimal digits to text only
    after [sys.set_int_max_str_digits] has raised the limit; by default
    [str()], [repr()] and [json.dumps] raise this [ValueError] on it. *)
Definition int_max_str_digits : Z := 4300.

Definition int_fits (n : Z) : bool := (Z.abs n <? 10 ^ int_max_str_digits)%Z.

Definition int_str_error : Exception :=
  ValueError "Exceeds the limit (4300 digits) for integer string conversion; use sys.set_int_max_str_digits() to increase the limit".

(** Every int in the value, at any depth, is within the limit. *)
Fixpoint converts (v : PyVal) : bool :=
  match v with
  | PyInt n => int_fits n
  | PyList items | PyTuple items => forallb converts items
  | PyDict items => forallb (λ kv, converts (snd kv)) items
  | _ => true
  end.

(** What [str(v)] raises by default, if it raises. *)
Definition str_error (v : PyVal) : option Exception :=
  if converts v then None else Some int_str_error.

(** ** [json.dumps(obj, indent=2)] *)

(** [ensure_ascii] escaping of one character. *)
Definition json_escape_char (c : ascii) : string :=
  let n := nat_of_ascii c in
  if Ascii.eqb c DQUOTE || Ascii.eqb c BACKSLASH then String BACKSLASH (String c "")
  else if (n =? 8)%nat then String BACKSLASH "b"
  else if (n =? 9)%nat then String BACKSLASH "t"
  else if (n =? 10)%nat then String BACKSLASH "n"
  else if (n =? 12)%nat then String BACKSLASH "f"
  else if (n =? 13)%nat then String BACKSLASH "r"
  else if (n <? 32)%nat || (126 <? n)%nat then String BACKSLASH "u00" +:+ hex2 n
  else String c "".

Definition json_string (s : string) : string :=
  String DQUOTE (string_flat_map json_escape_char s) +:+ String DQUOTE "".

Definition json_float (x : float) : string :=
  if String.eqb x "nan" then "NaN"
  else if String.eqb x "inf" then "Infinity"
  else if String.eqb x "-inf" then "-Infinity"
  else x.

Fixpoint spaces (n : nat) : string :=
  match n with
  | O => ""
  | S n' => " " +:+ spaces n'
  end.

(** A newline and the indentation of nesting depth [level]. *)
Definition newline_indent (indent level : nat) : string :=
  LF +:+ spaces (indent * level).

(** The encoder as CPython runs it by default: a tuple is encoded as a
    list; an int beyond the limit and an object of a foreign class are
    refused, the first of them met going through the value. *)
Fixpoint json_encode (indent level : nat) (v : PyVal) : Result string :=
  match v with
  | PyNone => Ok "null"
  | PyBool true => Ok "true"
  | PyBool false => Ok "false"
  | PyInt n => if int_fits n then Ok (pretty n) else Raise int_str_error
  | PyFloat x => Ok (json_float x)
  | PyStr s => Ok (json_string s)
  | PyList [] | PyTuple [] => Ok "[]"
  | PyList items | PyTuple items =>
      match mapM (json_encode indent (S level)) items with
      | Raise e => Raise e
      | Ok chunks =>
          Ok ("[" +:+ newline_indent indent (S level)
                  +:+ String.concat ("," +:+ newline_indent indent (S level)) chunks
                  +:+ newline_indent indent level +:+ "]")
      end
  | PyDict [] => Ok "{}"
  | PyDict items =>
      match mapM (λ kv, match json_encode indent (S level) (snd kv) with
                        | Raise e => Raise e
                        | Ok chunk => Ok (json_string (fst kv) +:+ ": " +:+ chunk)
                        end) items with
      | Raise e => Raise e
      | Ok chunks =>
          Ok ("{" +:+ newline_indent indent (S level)
                  +:+ String.concat ("," +:+ newline_indent indent (S level)) chunks
                  +:+ newline_indent indent level +:+ "}")
      end
  | PyObject cls _ =>
      Raise (TypeError ("Object of type " +:+ cls +:+ " is not JSON serializable"))
  end.

Definition json_dumps (obj : PyVal) (indent : nat) : Result string :=
  json_encode indent 0 obj.

(** [s[:n]] *)
Definition prefix (n : nat) (s : string) : string := substring 0 n s.

End Py.

(* ===================================================================== *)
(** * [load_resumes] (both modules, same text)                             *)
(* ===================================================================== *)

Module Loader.
Import Py.

(** A cell of a row of [csv.DictReader]: a str, or [None] where the line
    has fewer fields than the header. *)
Definition cell := option string.

(** A row as [csv.DictReader] yields it: column name to cell. *)
Abbreviation row := (gmap string cell).

(** The dict stored per resume, in the order of its display. *)
Definition entry := list (string * cell).

(** [open(csv_path)] followed by reading all of [csv.DictReader(f)]: the
    rows in file order, or the exception opening or reading raised. *)
Definition FileSystem := string → Result (list row).

(** [row[column]] *)
Definition column (r : row) (name : string) : Result cell :=
  match r !! name with
  | Some c => Ok c
  | None => Raise (KeyError (PyStr name))
  end.

(** The body of the loop: the display on the right is evaluated first,
    then the subscript of the target. *)
Definition store_row (resumes : gmap cell entry) (r : row) : Result (gmap cell entry) :=
  id ← column r "ID";
  resume_str ← column r "Resume_str";
  resume_html ← column r "Resume_html";
  key ← column r "ID";
  mret (<[key := [("ID", id); ("Resume_str", resume_str); ("Resume_html", resume_html)]]> resumes).

Fixpoint store_rows (resumes : gmap cell entry) (rows : list row) : Result (gmap cell entry) :=
  match rows with
  | [] => Ok resumes
  | r :: rows' =>
      match store_row resumes r with
      | Raise e => Raise e
      | Ok resumes' => store_rows resumes' rows'
      end
  end.

Definition load_resumes (fs : FileSystem) (csv_path : string) : Result (gmap cell entry) :=
  rows ← fs csv_path;
  store_rows ∅ rows.

End Loader.

(* ===================================================================== *)
(** * The completion gateway: [analyze_resume] and [structured_llm_call]   *)
(* ===================================================================== *)

Module Gateway.
Import Py.

(** What [client.post(url, headers=headers, json=payload)] is called with,
    on a client built with [timeout=60]. *)
Record Request : Type := {
  url : string;
  headers : list (string * string);
  json : PyVal;
  timeout : Z
}.

(** The response object, by what the code asks of it: its status (with the
    text [httpx] puts in the [HTTPStatusError] it raises for that status)
    and what [resp.json()] does. *)
Record Response : Type := {
  status_code : Z;
  status_error : string;
  body : Result PyVal
}.

(** The world a call runs in: what the endpoint answers to a request (an
    exception for a failed connection or a timeout); what [json.loads]
    does on a text; what [str()] raises on a value, if it raises (by
    default CPython raises on an int of more than 4300 digits; it also
    raises on a container nested beyond what its stack allows); and what
    [json.dumps(obj, indent=2)] does. *)
Record Env : Type := {
  post : Request → Result Response;
  loads : string → Result PyVal;
  str_raises : PyVal → option Exception;
  dumps : PyVal → Result string
}.

(** [resp.raise_for_status()]: raises unless the status is 2xx. *)
Definition raise_for_status (resp : Response) : Result unit :=
  if ((200 <=? status_code resp) && (status_code resp <=? 299))%Z
  then Ok tt
  else Raise (Raised "HTTPStatusError" (status_error resp)).

(** [json.loads(content)] *)
Definition json_loads (E : Env) (content : PyVal) : Result PyVal :=
  match content with
  | PyStr s => loads E s
  | _ => Raise (TypeError ("the JSON object must be str, bytes or bytearray, not "
                           +:+ type_name content))
  end.

(** Computations that talk to the network: the requests handed to
    [client.post] so far are threaded through. *)
Definition IO (A : Type) : Type := list Request → Result A * list Request.

Definition io_ret {A} (a : A) : IO A := λ sent, (Ok a, sent).

Definition io_bind {A B} (m : IO A) (k : A → IO B) : IO B := λ sent,
  match m sent with
  | (Ok a, sent') => k a sent'
  | (Raise e, sent') => (Raise e, sent')
  end.

Definition lift {A} (r : Result A) : IO A := λ sent, (r, sent).

Definition client_post (E : Env) (req : Request) : IO Response := λ sent,
  (post E req, (sent ++ [req])%list).

(** [try: body  except Exception as e: handler e] *)
Definition try_except {A} (body : IO A) (handler : Exception → IO A) : IO A := λ sent,
  match body sent with
  | (Ok a, sent') => (Ok a, sent')
  | (Raise e, sent') => handler e sent'
  end.

Notation "x <- m ;; k" := (io_bind m (λ x, k))
  (at level 20, m at level 99, k at level 200, only parsing).

(** The envelope of the success path and of the [except] branch. *)
Definition success_envelope (result usage : PyVal) : dict :=
  [("result", result); ("error", PyNone); ("usage", usage)].

Definition error_envelope (e : Exception) : dict :=
  [("result", PyNone); ("error", PyStr (exc_str e)); ("usage", PyDict [])].

(** The body of the [try] block, the same text in both functions. *)
Definition post_and_decode (E : Env) (url : string) (headers : list (string * string))
    (payload : PyVal) : IO dict :=
  let request := {| url := url; headers := headers; json := payload; timeout := 60 |} in
  resp <- client_post E request ;;
  checked <- lift (raise_for_status resp) ;;
  data <- lift (body resp) ;;
  choices <- lift (getitem data "choices") ;;
  choice <- lift (getitem_index choices 0) ;;
  message <- lift (getitem choice "message") ;;
  content <- lift (getitem message "content") ;;
  result <- lift (json_loads E content) ;;
  usage <- lift (get_default data "usage" (PyDict [])) ;;
  io_ret (success_envelope result usage).

Definition endpoint_url : string := "https://openrouter.ai/api/v1/chat/completions".

Definition auth_headers (api_key : string) : list (string * string) :=
  [("Authorization", "Bearer " +:+ api_key); ("Content-Type", "application/json")].

Definition chat_payload (model : string) (full_prompt : string) (temperature : float)
    (max_tokens : Z) : PyVal :=
  PyDict [("model", PyStr model);
          ("messages", PyList [PyDict [("role", PyStr "user"); ("content", PyStr full_prompt)]]);
          ("temperature", PyFloat temperature);
          ("max_tokens", PyInt max_tokens);
          ("response_format", PyDict [("type", PyStr "json_object")])].

(** ** [resume_utils.analyze_resume] *)

(** [full_prompt] of [analyze_resume]. *)
Definition resume_prompt (prompt resume_text output_schema : string) : string :=
  prompt +:+ LF +:+ LF
  +:+ "Resume:" +:+ LF
  +:+ prefix 3000 resume_text +:+ LF +:+ LF
  +:+ "Return a JSON object with this structure:" +:+ LF
  +:+ output_schema +:+ LF +:+ LF
  +:+ "Return ONLY valid JSON, no additional text.".

Definition analyze_resume (E : Env) (api_key prompt resume_text output_schema : string)
    (model : option string) (temperature : option float) : IO dict :=
  let model := default "anthropic/claude-3.5-sonnet" model in
  let temperature := default "0.3" temperature in
  let full_prompt := resume_prompt prompt resume_text output_schema in
  let url := endpoint_url in
  let headers := auth_headers api_key in
  let payload := chat_payload model full_prompt temperature 1500 in
  try_except (post_and_decode E url headers payload)
             (λ e, io_ret (error_envelope e)).

(** ** [agent_utils.structured_llm_call] *)

Definition field_limit : nat := 5000.
Definition truncation_marker : string := LF +:+ "... (truncated)".

(** The replacement field [{value}] of an f-string, which inserts
    [str(value)].  On a str, [None], a bool or a float [str()] returns; on
    an int, a container or an object it returns unless the world has it
    raise. *)
Definition format_value (E : Env) (value : PyVal) : Result string :=
  match value with
  | PyNone | PyBool _ | PyFloat _ | PyStr _ => Ok (py_str value)
  | _ =>
      match str_raises E value with
      | Some e => Raise e
      | None => Ok (py_str value)
      end
  end.

(** The [if] of the loop: a str of more than 5000 characters is cut. *)
Definition truncate (value : PyVal) : PyVal :=
  match value with
  | PyStr s =>
      if (field_limit <? String.length s)%nat
      then PyStr (prefix field_limit s +:+ truncation_marker)
      else value
  | _ => value
  end.

(** What one turn of the loop appends to [context_str], when [str()] of
    the value returns. *)
Definition context_field (kv : string * PyVal) : string :=
  LF +:+ upper (fst kv) +:+ ":" +:+ LF +:+ py_str (truncate (snd kv)) +:+ LF.

(** What the loop over [context_data.items()] builds, when [str()] of
    every value returns. *)
Definition build_context (context_data : dict) : string :=
  fold_left (λ context_str kv, context_str +:+ context_field kv) context_data "".

(** The loop over [context_data.items()] as it runs, from the value
    [context_str] has when a turn starts: a turn cuts the value, formats
    the field and appends it; an exception of the formatting ends the
    loop. *)
Fixpoint context_loop (E : Env) (context_str : string) (items : dict) : Result string :=
  match items with
  | [] => Ok context_str
  | (key, value) :: items' =>
      let value := truncate value in
      match format_value E value with
      | Raise e => Raise e
      | Ok text =>
          context_loop E (context_str +:+ (LF +:+ upper key +:+ ":" +:+ LF +:+ text +:+ LF))
                       items'
      end
  end.

(** [full_prompt] of [structured_llm_call]. *)
Definition structured_prompt (prompt context_str schema_str : string) : string :=
  prompt +:+ LF +:+ LF
  +:+ context_str +:+ LF +:+ LF
  +:+ "Return a JSON object with this exact structure:" +:+ LF
  +:+ schema_str +:+ LF +:+ LF
  +:+ "IMPORTANT: Return ONLY valid JSON, no additional text or markdown formatting.".

Definition structured_llm_call (E : Env) (api_key prompt : string)
    (context_data output_schema : dict)
    (model : option string) (temperature : option float) : IO dict :=
  let model := default "anthropic/claude-3.5-sonnet" model in
  let temperature := default "0.2" temperature in
  context_str <- lift (context_loop E "" context_data) ;;
  schema_str <- lift (dumps E (PyDict output_schema)) ;;
  let full_prompt := structured_prompt prompt context_str schema_str in
  let url := endpoint_url in
  let headers := auth_headers api_key in
  let payload := chat_payload model full_prompt temperature 2000 in
  try_except (post_and_decode E url headers payload)
             (λ e, io_ret (error_envelope e)).

End Gateway.

(* ===================================================================== *)
(** * The tools and their registry ([agent_utils])                         *)
(* ===================================================================== *)

Module Tools.
Import Py.

(** ** The seven tools: each returns the content of a new dict. *)

Definition schedule_technical_assessment (candidate_id assessment_type : string) : dict :=
  [("status", PyStr "success");
   ("message", PyStr ("Technical assessment (" +:+ assessment_type
                      +:+ ") scheduled for candidate " +:+ candidate_id));
   ("assessment_type", PyStr assessment_type);
   ("scheduled_date", PyStr "2024-02-15")].

Definition route_to_department (candidate_id department reason : string) : dict :=
  [("status", PyStr "success");
   ("message", PyStr ("Candidate " +:+ candidate_id +:+ " routed to " +:+ department));
   ("department", PyStr department);
   ("reason", PyStr reason)].

Definition request_additional_info (candidate_id info_needed : string) : dict :=
  [("status", PyStr "success");
   ("message", PyStr ("Additional info requested from candidate " +:+ candidate_id));
   ("info_needed", PyStr info_needed);
   ("request_sent_date", PyStr "2024-02-01")].

Definition reject_application (candidate_id reason : string) : dict :=
  [("status", PyStr "success");
   ("message", PyStr ("Application rejected for candidate " +:+ candidate_id));
   ("reason", PyStr reason);
   ("rejection_email_sent", PyBool true)].

Definition flag_for_manual_review (candidate_id concern : string) : dict :=
  [("status", PyStr "success");
   ("message", PyStr ("Candidate " +:+ candidate_id +:+ " flagged for manual review"));
   ("concern", PyStr concern);
   ("assigned_to", PyStr "hiring_manager")].

Definition send_email (candidate_id template : string) : dict :=
  [("status", PyStr "success");
   ("message", PyStr ("Email sent to candidate " +:+ candidate_id));
   ("template", PyStr template);
   ("sent_date", PyStr "2024-02-01")].

Definition done (candidate_id : string) : dict :=
  [("status", PyStr "success");
   ("message", PyStr ("Processing complete for candidate " +:+ candidate_id));
   ("final", PyBool true)].

(** ** Function objects and calls *)

(** A [def]: its name, the names of its parameters (none has a default)
    and its body. *)
Inductive PyFunction : Type :=
| Def1 (name p1 : string) (body : string → dict)
| Def2 (name p1 p2 : string) (body : string → string → dict)
| Def3 (name p1 p2 p3 : string) (body : string → string → string → dict).

Definition func_name (f : PyFunction) : string :=
  match f with
  | Def1 name _ _ | Def2 name _ _ _ | Def3 name _ _ _ _ => name
  end.

Definition signature (f : PyFunction) : list string :=
  match f with
  | Def1 _ p1 _ => [p1]
  | Def2 _ p1 p2 _ => [p1; p2]
  | Def3 _ p1 p2 p3 _ => [p1; p2; p3]
  end.

Definition mem (x : string) (l : list string) : bool :=
  existsb (String.eqb x) l.

(** The first keyword the interpreter rejects, going through the keywords
    in order: one that names no parameter, or the parameter already
    filled by position. *)
Fixpoint bad_keyword (fname : string) (filled : string) (names : list string)
    (kwargs : list (string * string)) : option Exception :=
  match kwargs with
  | [] => None
  | (kw, _) :: kwargs' =>
      if negb (mem kw names)
      then Some (TypeError (fname +:+ "() got an unexpected keyword argument '" +:+ kw +:+ "'"))
      else if String.eqb kw filled
      then Some (TypeError (fname +:+ "() got multiple values for argument '" +:+ kw +:+ "'"))
      else bad_keyword fname filled names kwargs'
  end.

Definition quoted (s : string) : string := "'" +:+ s +:+ "'".

(** The [TypeError] for parameters left without a value. *)
Definition missing_error (fname : string) (missing : list string) : Exception :=
  match missing with
  | [a] => TypeError (fname +:+ "() missing 1 required positional argument: " +:+ quoted a)
  | _ =>
      TypeError (fname +:+ "() missing " +:+ pretty (length missing)
                 +:+ " required positional arguments: "
                 +:+ String.concat " and " (map quoted missing))
  end.

(** [f(candidate_id, **kwargs)]: [candidate_id] fills the first parameter
    by position, the keywords fill the others by name.  The result is the
    content of the dict the body returns, or the [TypeError] of a call
    that does not fit the signature. *)
Definition call (f : PyFunction) (candidate_id : string) (kwargs : list (string * string))
    : Result dict :=
  match bad_keyword (func_name f) (hd "" (signature f)) (signature f) kwargs with
  | Some e => Raise e
  | None =>
      match f with
      | Def1 _ _ body => Ok (body candidate_id)
      | Def2 name _ p2 body =>
          match lookup_key kwargs p2 with
          | Some a => Ok (body candidate_id a)
          | None => Raise (missing_error name [p2])
          end
      | Def3 name _ p2 p3 body =>
          match lookup_key kwargs p2, lookup_key kwargs p3 with
          | Some a, Some b => Ok (body candidate_id a b)
          | None, Some _ => Raise (missing_error name [p2])
          | Some _, None => Raise (missing_error name [p3])
          | None, None => Raise (missing_error name [p2; p3])
          end
      end
  end.

(** ** The registry *)

Record ActionDescriptor : Type := {
  function : PyFunction;
  description : string;
  parameters : list (string * string)
}.

Definition TOOL_REGISTRY : list (string * ActionDescriptor) :=
  [("schedule_technical_assessment",
    {| function := Def2 "schedule_technical_assessment" "candidate_id" "assessment_type"
                        schedule_technical_assessment;
       description := "Schedule a technical assessment (coding challenge, system design, etc.) for a promising candidate";
       parameters :=
         [("candidate_id", "string - The candidate's ID");
          ("assessment_type", "string - Type of assessment: 'coding_challenge', 'system_design', 'live_coding'")] |});
   ("route_to_department",
    {| function := Def3 "route_to_department" "candidate_id" "department" "reason"
                        route_to_department;
       description := "Route candidate to a specific department or hiring manager for further review";
       parameters :=
         [("candidate_id", "string - The candidate's ID");
          ("department", "string - Department name: 'senior_engineering', 'junior_engineering', 'internship'");
          ("reason", "string - Reason for routing to this department")] |});
   ("request_additional_info",
    {| function := Def2 "request_additional_info" "candidate_id" "info_needed"
                        request_additional_info;
       description := "Request additional information from the candidate (e.g., missing education details, clarification)";
       parameters :=
         [("candidate_id", "string - The candidate's ID");
          ("info_needed", "string - Description of what information is needed")] |});
   ("reject_application",
    {| function := Def2 "reject_application" "candidate_id" "reason" reject_application;
       description := "Reject the candidate's application with a reason";
       parameters :=
         [("candidate_id", "string - The candidate's ID");
          ("reason", "string - Reason for rejection (be professional and constructive)")] |});
   ("flag_for_manual_review",
    {| function := Def2 "flag_for_manual_review" "candidate_id" "concern"
                        flag_for_manual_review;
       description := "Flag candidate for manual human review when uncertain or edge case";
       parameters :=
         [("candidate_id", "string - The candidate's ID");
          ("concern", "string - Description of what requires human judgment")] |});
   ("send_email",
    {| function := Def2 "send_email" "candidate_id" "template" send_email;
       description := "Send an email to the candidate using a template";
       parameters :=
         [("candidate_id", "string - The candidate's ID");
          ("template", "string - Template name: 'technical_interview_invite', 'rejection', 'request_info'")] |});
   ("done",
    {| function := Def1 "done" "candidate_id" done;
       description := "Signal that processing is complete for this candidate. Call this when no further automated actions are needed.";
       parameters :=
         [("candidate_id", "string - The candidate's ID")] |})].

(** ** Objects *)

(** The store of objects: the dicts the tools return, and the dict the
    module binds to [TOOL_REGISTRY] when it is imported. *)
Inductive object : Type :=
| ODict (d : dict)
| ORegistry (r : list (string * ActionDescriptor)).

Abbreviation loc := positive.
Abbreviation heap := (gmap positive object).

(** A new object gets an identity no live object has. *)
Definition alloc (o : object) (σ : heap) : loc * heap :=
  let l := fresh (dom σ) in (l, <[l := o]> σ).

(** Importing the module evaluates the display of [TOOL_REGISTRY]. *)
Definition import_module (σ : heap) : loc * heap := alloc (ORegistry TOOL_REGISTRY) σ.

(** A call as it runs: the dict the body returns is a new object. *)
Definition invoke (f : PyFunction) (candidate_id : string) (kwargs : list (string * string))
    (σ : heap) : Result loc * heap :=
  match call f candidate_id kwargs with
  | Raise e => (Raise e, σ)
  | Ok d => let '(l, σ') := alloc (ODict d) σ in (Ok l, σ')
  end.

(** The functions the module defines. *)
Definition module_functions : list PyFunction := map (λ kv, function (snd kv)) TOOL_REGISTRY.

(** One step of a run of the program: a call of one of its tools, with
    any arguments. *)
Inductive step (σ σ' : heap) : Prop :=
| step_invoke f candidate_id kwargs r :
    f ∈ module_functions →
    invoke f candidate_id kwargs σ = (r, σ') →
    step σ σ'.

(** The states a run reaches after the import. *)
Inductive reachable (σ0 : heap) : heap → Prop :=
| reach_import : reachable σ0 (snd (import_module σ0))
| reach_step σ σ' : reachable σ0 σ → step σ σ' → reachable σ0 σ'.

End Tools.

(* ===================================================================== *)
(** * The vocabulary of the statements                                     *)
(* ===================================================================== *)

Module Contract.
Import Py Gateway.

(** The request a call hands to [client.post]. *)
Definition request (api_key : string) (payload : PyVal) : Request :=
  {| url := endpoint_url; headers := auth_headers api_key; json := payload; timeout := 60 |}.

(** A field of a dict is non-null: present and not [None]. *)
Definition non_null (d : dict) (key : string) : bool :=
  match dict_get d key with
  | Some v => negb (is_none v)
  | None => false
  end.

Definition exactly_one_non_null (envelope : dict) : bool :=
  xorb (non_null envelope "result") (non_null envelope "error").

(** The failure of the remote side, if any: the exception of a failed
    exchange, of a status outside 2xx, or of a body that does not decode. *)
Definition remote_failure (E : Env) (req : Request) : option Exception :=
  match post E req with
  | Raise e => Some e
  | Ok resp =>
      match raise_for_status resp with
      | Raise e => Some e
      | Ok _ => match body resp with
                | Raise e => Some e
                | Ok _ => None
                end
      end
  end.

(** An invocation of one of the two gateway functions, with its
    arguments ([None] for an argument left to its default). *)
Inductive Invocation : Type :=
| AnalyzeResume (api_key prompt resume_text output_schema : string)
    (model : option string) (temperature : option float)
| StructuredLlmCall (api_key prompt : string) (context_data output_schema : dict)
    (model : option string) (temperature : option float).

Definition run (E : Env) (i : Invocation) : IO dict :=
  match i with
  | AnalyzeResume api_key prompt resume_text output_schema model temperature =>
      analyze_resume E api_key prompt resume_text output_schema model temperature
  | StructuredLlmCall api_key prompt context_data output_schema model temperature =>
      structured_llm_call E api_key prompt context_data output_schema model temperature
  end.

Definition api_key_of (i : Invocation) : string :=
  match i with
  | AnalyzeResume api_key _ _ _ _ _ | StructuredLlmCall api_key _ _ _ _ _ => api_key
  end.

(** The prompt an invocation assembles before its [try], or the exception
    assembling it raises. *)
Definition full_prompt (E : Env) (i : Invocation) : Result string :=
  match i with
  | AnalyzeResume _ prompt resume_text output_schema _ _ =>
      Ok (resume_prompt prompt resume_text output_schema)
  | StructuredLlmCall _ prompt context_data output_schema _ _ =>
      match context_loop E "" context_data with
      | Raise e => Raise e
      | Ok context_str =>
          match dumps E (PyDict output_schema) with
          | Raise e => Raise e
          | Ok schema_str => Ok (structured_prompt prompt context_str schema_str)
          end
      end
  end.

(** The body of the request built around a prompt. *)
Definition payload_for (i : Invocation) (content : string) : PyVal :=
  match i with
  | AnalyzeResume _ _ _ _ model temperature =>
      chat_payload (default "anthropic/claude-3.5-sonnet" model) content
                   (default "0.3" temperature) 1500
  | StructuredLlmCall _ _ _ _ model temperature =>
      chat_payload (default "anthropic/claude-3.5-sonnet" model) content
                   (default "0.2" temperature) 2000
  end.

(** The guarded exchange of an invocation: the body of its [try]. *)
Definition attempt (E : Env) (i : Invocation) (content : string) : IO dict :=
  post_and_decode E endpoint_url (auth_headers (api_key_of i)) (payload_for i content).

(** What an envelope is, given how the guarded exchange ended. *)
Definition envelope_contract (attempted : Result dict) (envelope : dict) : Prop :=
  keys envelope = ["result"; "error"; "usage"] ∧
  non_null envelope "result" && non_null envelope "error" = false ∧
  match attempted with
  | Raise e =>
      envelope = error_envelope e ∧
      non_null envelope "error" = true ∧
      dict_get envelope "result" = Some PyNone ∧
      dict_get envelope "usage" = Some (PyDict [])
  | Ok returned =>
      envelope = returned ∧
      dict_get envelope "error" = Some PyNone ∧
      (exactly_one_non_null envelope = true ↔ dict_get envelope "result" ≠ Some PyNone)
  end.

(** The shape of a request: a bearer token, and a body of exactly five
    keys whose [messages] is one user message holding [content]. *)
Definition request_shape (api_key content : string) (req : Request) : Prop :=
  lookup_key (headers req) "Authorization" = Some ("Bearer " +:+ api_key) ∧
  ∃ fields : dict,
    json req = PyDict fields ∧
    keys fields = ["model"; "messages"; "temperature"; "max_tokens"; "response_format"] ∧
    dict_get fields "messages"
      = Some (PyList [PyDict [("role", PyStr "user"); ("content", PyStr content)]]) ∧
    dict_get fields "response_format" = Some (PyDict [("type", PyStr "json_object")]).

(** The three columns [load_resumes] reads. *)
Definition resume_columns : list string := ["ID"; "Resume_str"; "Resume_html"].

(** A row that has the three columns. *)
Definition complete (r : gmap string Loader.cell) : Prop :=
  is_Some (r !! "ID") ∧ is_Some (r !! "Resume_str") ∧ is_Some (r !! "Resume_html").

(** The dict [load_resumes] stores for a row. *)
Definition entry_of (r : gmap string Loader.cell) : Loader.entry :=
  [("ID", default None (r !! "ID"));
   ("Resume_str", default None (r !! "Resume_str"));
   ("Resume_html", default None (r !! "Resume_html"))].

(** The last of the rows whose ID is [key]. *)
Fixpoint latest (key : Loader.cell) (rows : list (gmap string Loader.cell))
    : option (gmap string Loader.cell) :=
  match rows with
  | [] => None
  | r :: rows' =>
      match latest key rows' with
      | Some r' => Some r'
      | None => if decide (r !! "ID" = Some key) then Some r else None
      end
  end.

(** The parameters a descriptor declares besides [candidate_id], which
    the caller passes by keyword. *)
Definition keyword_parameters (d : Tools.ActionDescriptor) : list string :=
  filter (λ p, p ≠ "candidate_id") (map fst (Tools.parameters d)).

(** How the loop of [structured_llm_call] renders the value of a field. *)
Definition rendered (value : PyVal) : string := py_str (truncate value).

(** A value on which [str()] returns in every world: a str, [None], a bool
    or a float. *)
Definition plain (value : PyVal) : bool :=
  match value with
  | PyNone | PyBool _ | PyFloat _ | PyStr _ => true
  | _ => false
  end.

End Contract.

(* ===================================================================== *)
(** * Concrete worlds and inputs                                           *)
(* ===================================================================== *)

Module Examples.
Import Py Gateway.

(** [json.loads] on the three JSON literals, which is all the worlds below
    have it decode. *)
Definition decode_literal (s : string) : Result PyVal :=
  if String.eqb s "null" then Ok PyNone
  else if String.eqb s "true" then Ok (PyBool true)
  else if String.eqb s "false" then Ok (PyBool false)
  else Raise (Raised "JSONDecodeError" "Expecting value: line 1 column 1 (char 0)").

(** A 200 response whose first choice has the given content. *)
Definition reply (content : string) : Response :=
  {| status_code := 200;
     status_error := "";
     body := Ok (PyDict
       [("choices", PyList [PyDict [("message", PyDict [("role", PyStr "assistant");
                                                       ("content", PyStr content)])]]);
        ("usage", PyDict [("total_tokens", PyInt 42)])]) |}.

(** The worlds below run [str()] and [json.dumps] as CPython does by
    default ([str_error], [json_dumps]). *)
Definition dumps_indent_2 (obj : PyVal) : Result string := json_dumps obj 2.

(** The model answers with the JSON text [null]. *)
Definition null_reply : Env :=
  {| post := λ _, Ok (reply "null"); loads := decode_literal;
     str_raises := str_error; dumps := dumps_indent_2 |}.

(** The connection is refused. *)
Definition unreachable : Env :=
  {| post := λ _, Raise (Raised "ConnectError" "[Errno 111] Connection refused");
     loads := decode_literal;
     str_raises := str_error; dumps := dumps_indent_2 |}.

(** The endpoint answers 503. *)
Definition overloaded : Env :=
  {| post := λ _, Ok {| status_code := 503;
                        status_error := "Server error '503 Service Unavailable'";
                        body := Ok (PyDict []) |};
     loads := decode_literal;
     str_raises := str_error; dumps := dumps_indent_2 |}.

(** A schema holding a set, and one of texts only. *)
Definition schema_with_set : dict :=
  [("name", PyStr "string"); ("skills", PyObject "set" "{'python', 'sql'}")].

Definition schema_of_texts : dict :=
  [("fit", PyStr "yes or no"); ("score", PyStr "integer 1-10")].

(** An int of 5001 digits. *)
Definition huge_int : PyVal := PyInt (10 ^ 5000).

(** A context value that is a list of 2000 items. *)
Definition long_history : PyVal := PyList (replicate 2000 (PyInt 0)).

(** A resume of 5001 characters. *)
Definition long_resume : string := String.concat "" (replicate (S field_limit) "x").

(** Another resume, with the same first 5000 characters and a different
    text from the 5001st on. *)
Definition other_long_resume : string :=
  String.concat "" (replicate field_limit "x") +:+ "y, and more".

(** A CSV of three rows, two of them with the same ID. *)
Definition csv_row (id resume_str resume_html : string) : gmap string Loader.cell :=
  <["ID" := Some id]> (<["Resume_str" := Some resume_str]>
    (<["Resume_html" := Some resume_html]> ∅)).

Definition sample_rows : list (gmap string Loader.cell) :=
  [csv_row "1" "first" "<p>first</p>"; csv_row "2" "second" "<p>second</p>";
   csv_row "1" "third" "<p>third</p>"].

Definition sample_fs : Loader.FileSystem := λ _, Ok sample_rows.

End Examples.

(* ===================================================================== *)
(** * [load_job_requirements] and further vocabulary                       *)
(* ===================================================================== *)

Module Coverage.
Import Py Gateway Contract.

(** [open(file_path)] followed by [f.read()]: the text of the file, or the
    exception opening or reading raised. *)
Definition TextFiles := string → Result string.

(** [agent_utils.load_job_requirements] *)
Definition load_job_requirements (fs : TextFiles) (file_path : string) : Result string :=
  fs file_path.

(** A response with a status in 2xx. *)
Definition success_status (resp : Response) : Prop :=
  (200 ≤ status_code resp ≤ 299)%Z.

(** The endpoint answers the request with a 2xx response whose body
    decodes to the dict [data]. *)
Definition answered (E : Env) (req : Request) (data : dict) : Prop :=
  ∃ resp, post E req = Ok resp ∧ success_status resp ∧ body resp = Ok (PyDict data).

(** The body has a first choice with a message whose content is [v]. *)
Definition first_content (data : dict) (v : PyVal) : Prop :=
  ∃ choice rest message,
    dict_get data "choices" = Some (PyList (PyDict choice :: rest)) ∧
    dict_get choice "message" = Some (PyDict message) ∧
    dict_get message "content" = Some v.

(** A world whose endpoint answers every request with 200 and the body
    [data]. *)
Definition answering (data : dict) : Env :=
  {| post := λ _, Ok {| status_code := 200; status_error := ""; body := Ok (PyDict data) |};
     loads := Examples.decode_literal;
     str_raises := str_error; dumps := Examples.dumps_indent_2 |}.

(** A body with one choice of the given content and a usage count. *)
Definition completion (content : PyVal) : dict :=
  [("choices", PyList [PyDict [("message", PyDict [("role", PyStr "assistant");
                                                   ("content", content)])]]);
   ("usage", PyDict [("total_tokens", PyInt 42)])].

(** A 429 response whose body is nevertheless a completion. *)
Definition throttled : Response :=
  {| status_code := 429;
     status_error := "Client error '429 Too Many Requests'";
     body := Ok (PyDict (completion (PyStr "true"))) |}.

(** A bundle whose values are all of class [str]. *)
Definition str_valued (context_data : dict) : Prop :=
  Forall (λ kv, ∃ s, snd kv = PyStr s) context_data.

(** A bundle whose keys are ASCII text. *)
Definition ascii_keyed (context_data : dict) : Prop :=
  Forall (λ kv, is_ascii (fst kv) = true) context_data.

(** The sum of the lengths of the keys of a bundle. *)
Definition keys_length (context_data : dict) : nat :=
  foldr (λ kv n, String.length (fst kv) + n) 0 context_data.

(** The ID cells of the rows, in file order. *)
Definition ids (rows : list (gmap string Loader.cell)) : list (option Loader.cell) :=
  map (λ r, r !! "ID") rows.

(** [s] occurs in [text]. *)
Definition occurs_in (s text : string) : Prop :=
  ∃ before after, text = before +:+ s +:+ after.

End Coverage.

(* ===================================================================== *)
(** * Strings                                                              *)
(* ===================================================================== *)

Module StringFacts.
Import Py.

Lemma app_nil_r s : s +:+ "" = s.
Proof. induction s as [|c s IH]; [done|]. change (String c (s +:+ "") = String c s). by rewrite IH. Qed.

Lemma app_assoc s1 s2 s3 : (s1 +:+ s2) +:+ s3 = s1 +:+ s2 +:+ s3.
Proof.
  induction s1 as [|c s1 IH]; [done|].
  change (String c ((s1 +:+ s2) +:+ s3) = String c (s1 +:+ s2 +:+ s3)). by rewrite IH.
Qed.

Lemma length_app s1 s2 :
  String.length (s1 +:+ s2) = String.length s1 + String.length s2.
Proof.
  induction s1 as [|c s1 IH]; [done|].
  change (S (String.length (s1 +:+ s2)) = S (String.length s1 + String.length s2)).
  by rewrite IH.
Qed.

(** [s[:n]] has [min n len(s)] characters, and is [s] when [s] is short. *)
Lemma length_prefix n s : String.length (prefix n s) = n `min` String.length s.
Proof.
  unfold prefix. revert s.
  induction n as [|n IH]; intros [|c s]; cbn; try done.
  by rewrite IH.
Qed.

Lemma prefix_short n s : (String.length s ≤ n)%nat → prefix n s = s.
Proof.
  unfold prefix. revert s.
  induction n as [|n IH]; intros [|c s]; cbn; intros Hlen; try done; try lia.
  f_equal. apply IH. lia.
Qed.

Lemma concat_cons x l : String.concat "" (x :: l) = x +:+ String.concat "" l.
Proof. destruct l; cbn; [by rewrite app_nil_r|done]. Qed.

End StringFacts.

(* ===================================================================== *)
(** * Properties of [load_resumes]                                         *)
(* ===================================================================== *)

Module LoaderFacts.
Import Py Loader Contract Examples.

(** One turn of the loop: it stores the entry of the row under its ID, or
    raises [KeyError] for the first column the row lacks. *)
Lemma store_row_inv (resumes : gmap cell entry) (r : row) :
  match store_row resumes r with
  | Ok resumes' =>
      complete r ∧ ∃ key, r !! "ID" = Some key ∧ resumes' = <[key := entry_of r]> resumes
  | Raise e =>
      ∃ name, name ∈ resume_columns ∧ r !! name = None ∧ e = KeyError (PyStr name)
  end.
Proof.
  unfold store_row, column, complete, entry_of, resume_columns.
  destruct (r !! "ID") as [id|] eqn:Hid; cbn.
  2:{ exists "ID". rewrite !elem_of_cons. auto. }
  destruct (r !! "Resume_str") as [resume_str|] eqn:Hstr; cbn.
  2:{ exists "Resume_str". rewrite !elem_of_cons. auto. }
  destruct (r !! "Resume_html") as [resume_html|] eqn:Hhtml; cbn.
  2:{ exists "Resume_html". rewrite !elem_of_cons. auto. }
  eauto 10.
Qed.

(** The loop: every row is complete and each key holds the entry of the
    last row of that ID (or what it held before), or some row lacks a
    column. *)
Lemma store_rows_inv (rows : list row) (acc : gmap cell entry) :
  match store_rows acc rows with
  | Ok resumes =>
      Forall complete rows ∧
      ∀ key, resumes !! key = match latest key rows with
                              | Some r => Some (entry_of r)
                              | None => acc !! key
                              end
  | Raise e =>
      ∃ r name, r ∈ rows ∧ name ∈ resume_columns ∧ r !! name = None
                ∧ e = KeyError (PyStr name)
  end.
Proof.
  revert acc. induction rows as [|r rows IH]; intros acc; cbn [store_rows].
  - split; [constructor|done].
  - pose proof (store_row_inv acc r) as Hrow.
    destruct (store_row acc r) as [acc'|e].
    + destruct Hrow as (Hcomplete & id & Hid & ->).
      specialize (IH (<[id := entry_of r]> acc)).
      destruct (store_rows _ rows) as [resumes|e].
      * destruct IH as [Hall Hlookup]. split; [by constructor|].
        intros key. rewrite Hlookup. cbn [latest].
        destruct (latest key rows); [done|].
        rewrite Hid. case_decide as Hkey.
        -- injection Hkey as ->. by rewrite lookup_insert_eq.
        -- rewrite lookup_insert_ne; [done|congruence].
      * destruct IH as (r' & name & Hin & Hrest). exists r', name.
        split; [by right|done].
    + destruct Hrow as (name & Hrest). exists r, name. split; [left|done].
Qed.

Lemma latest_is_Some key (rows : list row) :
  is_Some (latest key rows) ↔ ∃ r, r ∈ rows ∧ r !! "ID" = Some key.
Proof.
  induction rows as [|r rows IH]; cbn.
  - split; [by intros [? ?]|]. by intros (? & ?%elem_of_nil & _).
  - destruct (latest key rows) as [r'|].
    + split; [|eauto]. intros _.
      destruct (proj1 IH) as (r0 & Hin & Hid); [eauto|]. exists r0. split; [by right|done].
    + case_decide as Hkey.
      * split; [|eauto]. intros _. exists r. split; [left|done].
      * split; [by intros [? ?]|].
        intros (r0 & [->|Hin]%elem_of_cons & Hid); [done|].
        apply IH. eauto.
Qed.

Lemma latest_split key (rows : list row) r :
  latest key rows = Some r →
  ∃ before after,
    rows = before ++ r :: after ∧ r !! "ID" = Some key ∧
    Forall (λ r', r' !! "ID" ≠ Some key) after.
Proof.
  revert r. induction rows as [|r0 rows IH]; intros r; cbn; [done|].
  destruct (latest key rows) as [r'|] eqn:Hlatest.
  - intros [= ->]. destruct (IH r eq_refl) as (before & after & -> & Hid & Hafter).
    by exists (r0 :: before), after.
  - case_decide as Hkey; [|done]. intros [= ->].
    exists [], rows. split; [done|]. split; [done|].
    apply Forall_forall. intros r' Hin Hid.
    assert (is_Some (latest key rows)) as [? ?] by (apply latest_is_Some; eauto).
    congruence.
Qed.

(** The load returns whenever every row has the three columns. *)
Lemma load_resumes_returns (fs : FileSystem) csv_path rows :
  fs csv_path = Ok rows → Forall complete rows →
  ∃ resumes, load_resumes fs csv_path = Ok resumes.
Proof.
  intros Hfs Hall. unfold load_resumes. rewrite Hfs. cbn.
  pose proof (store_rows_inv rows ∅) as Hinv.
  destruct (store_rows ∅ rows) as [resumes|e]; [eauto|].
  destruct Hinv as (r & name & Hin & Hname & Hnone & _).
  apply Forall_forall with (x := r) in Hall; [|done].
  destruct Hall as (Hi & Hs & Hh).
  unfold resume_columns in Hname. rewrite !elem_of_cons, elem_of_nil in Hname.
  destruct Hname as [->|[->|[->|[]]]]; rewrite Hnone in *.
  - by apply is_Some_None in Hi.
  - by apply is_Some_None in Hs.
  - by apply is_Some_None in Hh.
Qed.

(** C10.  [load_resumes] passes on the exception of opening or reading the
    file.  On the rows of a file it returns a mapping whenever every row
    has the three columns, and raises [KeyError] for a missing column
    otherwise.  The keys of the mapping are exactly the ID values of the
    rows; every entry has exactly the keys [ID], [Resume_str] and
    [Resume_html], with the values of a row of that ID, and that row is
    the last one of that ID: a later row overwrites an earlier one. *)
Theorem load_resumes_mapping (fs : FileSystem) (csv_path : string) :
  match fs csv_path with
  | Raise e => load_resumes fs csv_path = Raise e
  | Ok rows =>
      match load_resumes fs csv_path with
      | Ok resumes =>
          Forall complete rows ∧
          (∀ key, key ∈ dom resumes ↔ ∃ r, r ∈ rows ∧ r !! "ID" = Some key) ∧
          (∀ key e, resumes !! key = Some e →
             map fst e = ["ID"; "Resume_str"; "Resume_html"] ∧
             ∃ before r after,
               rows = before ++ r :: after ∧
               r !! "ID" = Some key ∧
               Forall (λ r', r' !! "ID" ≠ Some key) after ∧
               lookup_key e "ID" = r !! "ID" ∧
               lookup_key e "Resume_str" = r !! "Resume_str" ∧
               lookup_key e "Resume_html" = r !! "Resume_html")
      | Raise e =>
          ∃ r name, r ∈ rows ∧ name ∈ resume_columns ∧ r !! name = None
                    ∧ e = KeyError (PyStr name)
      end
  end.
Proof.
  unfold load_resumes. destruct (fs csv_path) as [rows|e]; cbn; [|done].
  pose proof (store_rows_inv rows ∅) as Hinv.
  destruct (store_rows ∅ rows) as [resumes|e]; [|done].
  destruct Hinv as [Hall Hlookup]. split; [done|]. split.
  - intros key. rewrite elem_of_dom, <- latest_is_Some, Hlookup.
    destruct (latest key rows); [by split; eauto|].
    rewrite lookup_empty. split; by intros [? ?].
  - intros key e. rewrite Hlookup.
    destruct (latest key rows) as [r|] eqn:Hlatest; [|by rewrite lookup_empty].
    intros [= <-]. split; [done|].
    destruct (latest_split key rows r Hlatest) as (before & after & -> & Hid & Hafter).
    exists before, r, after. split; [done|]. split; [done|]. split; [done|].
    apply Forall_forall with (x := r) in Hall; [|set_solver].
    destruct Hall as ([? Hi] & [? Hs] & [? Hh]).
    unfold entry_of, cell in *. by rewrite Hi, Hs, Hh.
Qed.

(** On the sample file the third row, of ID 1, replaces the first. *)
Example load_resumes_sample :
  match load_resumes sample_fs "resumes.csv" with
  | Ok resumes =>
      size resumes = 2 ∧
      resumes !! Some "1"
        = Some [("ID", Some "1"); ("Resume_str", Some "third");
                ("Resume_html", Some "<p>third</p>")] ∧
      resumes !! Some "2"
        = Some [("ID", Some "2"); ("Resume_str", Some "second");
                ("Resume_html", Some "<p>second</p>")]
  | Raise _ => False
  end.
Proof. vm_compute. repeat split. Qed.

(** A row without the [Resume_html] column ends the load with [KeyError]. *)
Example load_resumes_missing_column :
  load_resumes (λ _, Ok [<["ID" := Some "7"]> (<["Resume_str" := Some "text"]> ∅)])
    "resumes.csv"
  = Raise (KeyError (PyStr "Resume_html")).
Proof. vm_compute. reflexivity. Qed.

End LoaderFacts.

(* ===================================================================== *)
(** * Properties of the context assembler                                  *)
(* ===================================================================== *)

Module AssemblerFacts.
Import Py Gateway Contract Examples StringFacts.

(** The loop appends the rendering of each field, in order. *)
Lemma build_context_fold context_data acc :
  fold_left (λ context_str kv, context_str +:+ context_field kv) context_data acc
  = acc +:+ String.concat "" (map context_field context_data).
Proof.
  revert acc. induction context_data as [|kv context_data IH]; intros acc.
  - cbn. by rewrite app_nil_r.
  - change (map context_field (kv :: context_data))
      with (context_field kv :: map context_field context_data).
    rewrite concat_cons. cbn [fold_left]. by rewrite IH, app_assoc.
Qed.

Lemma build_context_concat context_data :
  build_context context_data = String.concat "" (map context_field context_data).
Proof. unfold build_context. by rewrite build_context_fold. Qed.

Lemma build_context_snoc context_data kv :
  build_context (context_data ++ [kv]) = build_context context_data +:+ context_field kv.
Proof. unfold build_context. by rewrite fold_left_app. Qed.

Lemma truncate_str s :
  truncate (PyStr s) =
  if (field_limit <? String.length s)%nat
  then PyStr (prefix field_limit s +:+ truncation_marker)
  else PyStr s.
Proof. reflexivity. Qed.

Lemma truncate_other value : (∀ s, value ≠ PyStr s) → truncate value = value.
Proof. destruct value; try done. intros H. by destruct (H s). Qed.

Lemma rendered_str_bounded s :
  String.length (rendered (PyStr s)) ≤ field_limit + String.length truncation_marker.
Proof.
  unfold rendered. rewrite truncate_str.
  destruct (field_limit <? String.length s) eqn:Hlong; cbn [py_str].
  - rewrite length_app, length_prefix. lia.
  - apply Nat.ltb_ge in Hlong. lia.
Qed.

(** C3, as stated, fails.  Only values that are a [str] are cut: a list of
    2000 items is rendered in full, in 6000 characters, which is more than
    5000 plus the 16 of the marker.  And [analyze_resume] cuts its one
    field at 3000 characters and appends no marker: of a resume of 5001
    characters it renders the first 3000 and nothing else. *)
Lemma long_list_field_exceeds_bound :
  build_context [("history", long_history)]
    = LF +:+ "HISTORY:" +:+ LF +:+ py_repr long_history +:+ LF
  ∧ (field_limit + String.length truncation_marker <? String.length (py_repr long_history)) = true
  ∧ resume_prompt "Rate this resume." long_resume "{}"
    = "Rate this resume." +:+ LF +:+ LF +:+ "Resume:" +:+ LF
      +:+ prefix 3000 long_resume +:+ LF +:+ LF
      +:+ "Return a JSON object with this structure:" +:+ LF +:+ "{}" +:+ LF +:+ LF
      +:+ "Return ONLY valid JSON, no additional text."
  ∧ (field_limit <? String.length long_resume) = true
  ∧ String.eqb (prefix 3000 long_resume) (prefix field_limit long_resume +:+ truncation_marker)
    = false.
Proof. repeat split; vm_compute; reflexivity. Qed.

(** C3 (amended).  The context block is the concatenation, in the order of
    the bundle, of one rendering per field: an upper-cased header and the
    value.  A value that is a [str] of more than 5000 characters is
    rendered as its first 5000 characters followed by the fixed marker
    (a newline and [... (truncated)], 16 characters), a shorter [str] as
    itself, so that no rendered [str] value exceeds 5000 characters plus
    the length of the marker, whatever the size of the input.  A value
    that is not a [str] is rendered by [str()] in full.  [analyze_resume]
    renders its resume text as its first 3000 characters, without a
    marker. *)
Theorem str_fields_bounded :
  (∀ context_data,
      build_context context_data = String.concat "" (map context_field context_data)) ∧
  (∀ key value,
      context_field (key, value) = LF +:+ upper key +:+ ":" +:+ LF +:+ rendered value +:+ LF) ∧
  (∀ s,
      (field_limit < String.length s →
         rendered (PyStr s) = prefix field_limit s +:+ truncation_marker ∧
         String.length (rendered (PyStr s)) = field_limit + String.length truncation_marker) ∧
      (String.length s ≤ field_limit → rendered (PyStr s) = s) ∧
      String.length (rendered (PyStr s)) ≤ field_limit + String.length truncation_marker) ∧
  (∀ value, (∀ s, value ≠ PyStr s) → rendered value = py_repr value) ∧
  (field_limit = 5000 ∧ truncation_marker = LF +:+ "... (truncated)"
   ∧ String.length truncation_marker = 16) ∧
  (∀ prompt resume_text output_schema,
      resume_prompt prompt resume_text output_schema
        = prompt +:+ LF +:+ LF +:+ "Resume:" +:+ LF
          +:+ prefix 3000 resume_text +:+ LF +:+ LF
          +:+ "Return a JSON object with this structure:" +:+ LF
          +:+ output_schema +:+ LF +:+ LF
          +:+ "Return ONLY valid JSON, no additional text."
      ∧ String.length (prefix 3000 resume_text) ≤ 3000
      ∧ (String.length resume_text ≤ 3000 → prefix 3000 resume_text = resume_text)).
Proof.
  split; [apply build_context_concat|].
  split; [done|].
  split.
  { intros s. split; [|split].
    - intros Hlong. unfold rendered. rewrite truncate_str.
      apply Nat.ltb_lt in Hlong as Hb. rewrite Hb. cbn [py_str]. split; [done|].
      rewrite length_app, length_prefix. lia.
    - intros Hshort. unfold rendered. rewrite truncate_str.
      apply Nat.ltb_ge in Hshort as ->. done.
    - apply rendered_str_bounded. }
  split.
  { intros value Hother. unfold rendered. rewrite truncate_other by done.
    destruct value; try done. by destruct (Hother s). }
  split; [done|].
  intros prompt resume_text output_schema. split; [done|]. split.
  - rewrite length_prefix. lia.
  - apply prefix_short.
Qed.

(** ** The loop as it runs *)

(** When the formatting of a field returns, it returns [str()] of the
    value. *)
Lemma format_value_returns E value text :
  format_value E value = Ok text → text = py_str value.
Proof.
  destruct value; cbn [format_value]; try (by intros [= <-]);
    destruct (str_raises E _); by intros [= <-].
Qed.

Lemma format_value_plain E value :
  plain value = true → format_value E value = Ok (py_str value).
Proof. by destruct value. Qed.

(** It raises only what [str()] raises, and only on a value that is an
    int, a container or an object. *)
Lemma format_value_raises E value e :
  format_value E (truncate value) = Raise e ↔ plain value = false ∧ str_raises E value = Some e.
Proof.
  destruct value as [| | | |s| | | |]; cbn [truncate format_value plain];
    try (split; [done|by intros [? _]]);
    try (destruct (str_raises E _); split; [by intros [= ->]|by intros [_ [= ->]]
                                           |done|by intros [_ ?]]).
  destruct (field_limit <? String.length s)%nat; cbn [format_value];
    (split; [done|by intros [? _]]).
Qed.

(** The loop, from any value of [context_str]: when it returns, it has
    appended the rendering of each field, in order. *)
Lemma context_loop_fold E context_data acc block :
  context_loop E acc context_data = Ok block →
  block = fold_left (λ context_str kv, context_str +:+ context_field kv) context_data acc.
Proof.
  revert acc. induction context_data as [|[key value] context_data IH]; intros acc.
  - by intros [= <-].
  - cbn [context_loop fold_left].
    destruct (format_value E (truncate value)) as [text|] eqn:Htext; [|done].
    apply format_value_returns in Htext as ->. apply IH.
Qed.

Lemma context_loop_returns E context_data block :
  context_loop E "" context_data = Ok block → block = build_context context_data.
Proof. apply context_loop_fold. Qed.

(** The loop returns when the formatting of every field does. *)
Lemma context_loop_formats E context_data acc :
  Forall (λ kv, ∃ text, format_value E (truncate (snd kv)) = Ok text) context_data →
  context_loop E acc context_data
  = Ok (fold_left (λ context_str kv, context_str +:+ context_field kv) context_data acc).
Proof.
  intros Hall. revert acc.
  induction Hall as [|[key value] context_data [text Htext] _ IH]; intros acc; [done|].
  cbn [context_loop fold_left]. cbn [snd] in Htext. rewrite Htext.
  apply format_value_returns in Htext as ->. apply IH.
Qed.

Lemma context_loop_Ok_inv E context_data acc block :
  context_loop E acc context_data = Ok block →
  Forall (λ kv, ∃ text, format_value E (truncate (snd kv)) = Ok text) context_data.
Proof.
  revert acc. induction context_data as [|[key value] context_data IH]; intros acc; [done|].
  cbn [context_loop].
  destruct (format_value E (truncate value)) as [text|] eqn:Htext; [|done].
  intros Hloop. constructor; [by exists text|by eapply IH].
Qed.

(** The loop raises at the first field whose formatting raises. *)
Lemma context_loop_raises E context_data acc e :
  context_loop E acc context_data = Raise e ↔
  ∃ before key value after,
    context_data = (before ++ (key, value) :: after)%list ∧
    Forall (λ kv, ∃ text, format_value E (truncate (snd kv)) = Ok text) before ∧
    format_value E (truncate value) = Raise e.
Proof.
  split.
  - revert acc. induction context_data as [|[key value] context_data IH]; intros acc; [done|].
    cbn [context_loop].
    destruct (format_value E (truncate value)) as [text|e'] eqn:Htext.
    + intros Hloop. destruct (IH _ Hloop) as (before & key' & value' & after & -> & Hall & He).
      exists ((key, value) :: before), key', value', after.
      split; [done|]. split; [|done]. constructor; [by exists text|done].
    + intros [= ->]. by exists [], key, value, context_data.
  - intros (before & key & value & after & -> & Hall & He). revert acc.
    induction Hall as [|[key' value'] before [text Htext] _ IH]; intros acc.
    + cbn [app context_loop]. by rewrite He.
    + cbn [app context_loop]. cbn [snd] in Htext. rewrite Htext. apply IH.
Qed.

(** C6, as stated, fails, in both of its parts.  A null value is rendered
    as the text [None], not as the empty string.  And the assembler has a
    failure mode: [str()] of an int of 5001 digits raises [ValueError], the
    loop does not handle it, and [structured_llm_call] raises it to its
    caller. *)
Lemma null_rendered_as_None_and_str_raises :
  build_context [("job_req", PyNone)] = LF +:+ "JOB_REQ:" +:+ LF +:+ "None" +:+ LF
  ∧ build_context [("job_req", PyStr "")] = LF +:+ "JOB_REQ:" +:+ LF +:+ "" +:+ LF
  ∧ String.eqb (build_context [("job_req", PyNone)]) (build_context [("job_req", PyStr "")])
    = false
  ∧ context_loop unreachable "" [("job_req", PyNone)]
    = Ok (LF +:+ "JOB_REQ:" +:+ LF +:+ "None" +:+ LF)
  ∧ context_loop unreachable "" [("resume", PyStr "Jane Doe, welder"); ("years", huge_int)]
    = Raise (ValueError "Exceeds the limit (4300 digits) for integer string conversion; use sys.set_int_max_str_digits() to increase the limit")
  ∧ structured_llm_call unreachable "sk-or-1" "Pick the next action."
      [("resume", PyStr "Jane Doe, welder"); ("years", huge_int)] schema_of_texts None None []
    = (Raise (ValueError "Exceeds the limit (4300 digits) for integer string conversion; use sys.set_int_max_str_digits() to increase the limit"), []).
Proof. do 5 (split; [vm_compute; reflexivity|]). vm_compute; reflexivity. Qed.

(** C6 (amended).  The context assembler is a pure transformation: when it
    returns, its output is the concatenation of the renderings of the
    fields of the bundle, in order, and of nothing else (the empty bundle
    gives the empty block, and a field that is not in the bundle has no
    part in the output).  It has one failure mode: an exception [str()]
    raises on a value is not handled by the loop and ends it, at the first
    such field; this can only be a value that is an int, a container or an
    object, so a bundle of str, [None], bool and float values never fails.
    A null value is rendered as the text [None]. *)
Theorem assembler_fails_only_in_str E :
  (∀ context_data block,
      context_loop E "" context_data = Ok block →
      block = String.concat "" (map context_field context_data)) ∧
  (∀ context_data e,
      context_loop E "" context_data = Raise e ↔
      ∃ before key value after,
        context_data = (before ++ (key, value) :: after)%list ∧
        context_loop E "" before = Ok (build_context before) ∧
        plain value = false ∧
        str_raises E value = Some e) ∧
  (∀ context_data,
      Forall (λ kv, plain (snd kv) = true) context_data →
      context_loop E "" context_data = Ok (build_context context_data)) ∧
  context_loop E "" [] = Ok "" ∧
  (∀ context_data key value,
      build_context (context_data ++ [(key, value)])
      = build_context context_data +:+ LF +:+ upper key +:+ ":" +:+ LF
          +:+ rendered value +:+ LF) ∧
  rendered PyNone = "None" ∧
  (∀ key, context_loop E "" [(key, PyNone)]
          = Ok (LF +:+ upper key +:+ ":" +:+ LF +:+ "None" +:+ LF)).
Proof.
  split.
  { intros context_data block Hloop.
    apply context_loop_returns in Hloop as ->. apply build_context_concat. }
  split.
  { intros context_data e. rewrite context_loop_raises. split.
    - intros (before & key & value & after & -> & Hall & He).
      exists before, key, value, after. split; [done|]. split.
      + by apply context_loop_formats.
      + by apply format_value_raises.
    - intros (before & key & value & after & -> & Hbefore & Hplain & He).
      exists before, key, value, after. split; [done|]. split.
      + by eapply context_loop_Ok_inv.
      + by apply format_value_raises. }
  split.
  { intros context_data Hall. apply context_loop_formats.
    eapply Forall_impl; [exact Hall|]. intros [key value] Hplain; cbn [snd] in *.
    exists (py_str (truncate value)). apply format_value_plain.
    destruct value; try done. cbn [truncate]. by destruct (_ <? _)%nat. }
  split; [done|].
  split; [intros; by rewrite build_context_snoc|].
  split; [done|].
  done.
Qed.

End AssemblerFacts.

(* ===================================================================== *)
(** * Properties of the completion gateway                                 *)
(* ===================================================================== *)

Module GatewayFacts.
Import Py Gateway Contract Examples.

(** How a guarded exchange unfolds, step by step. *)
Lemma post_and_decode_unfold E url headers payload sent :
  post_and_decode E url headers payload sent =
  let req := {| url := url; headers := headers; json := payload; timeout := 60 |} in
  let sent' := (sent ++ [req])%list in
  (resp ← post E req;
   checked ← raise_for_status resp;
   data ← body resp;
   choices ← getitem data "choices";
   choice ← getitem_index choices 0;
   message ← getitem choice "message";
   content ← getitem message "content";
   result ← json_loads E content;
   usage ← get_default data "usage" (PyDict []);
   Ok (success_envelope result usage), sent').
Proof.
  unfold post_and_decode, io_bind, client_post, lift, io_ret; cbn.
  destruct (post E _) as [resp|]; cbn; [|done].
  destruct (raise_for_status resp); cbn; [|done].
  destruct (body resp) as [data|]; cbn; [|done].
  destruct (getitem data "choices") as [choices|]; cbn; [|done].
  destruct (getitem_index choices 0) as [choice|]; cbn; [|done].
  destruct (getitem choice "message") as [message|]; cbn; [|done].
  destruct (getitem message "content") as [content|]; cbn; [|done].
  destruct (json_loads E content); cbn; [|done].
  by destruct (get_default data "usage" (PyDict [])).
Qed.

(** A guarded exchange hands exactly one request to [client.post]. *)
Lemma post_and_decode_sent E url headers payload sent :
  snd (post_and_decode E url headers payload sent) =
  (sent ++ [{| url := url; headers := headers; json := payload; timeout := 60 |}])%list.
Proof. by rewrite post_and_decode_unfold. Qed.

(** When it returns, it returns an envelope of the success path. *)
Lemma post_and_decode_returns E url headers payload sent envelope :
  fst (post_and_decode E url headers payload sent) = Ok envelope →
  ∃ result usage, envelope = success_envelope result usage.
Proof.
  rewrite post_and_decode_unfold; cbn.
  destruct (post E _) as [resp|]; cbn; [|done].
  destruct (raise_for_status resp); cbn; [|done].
  destruct (body resp) as [data|]; cbn; [|done].
  destruct (getitem data "choices") as [choices|]; cbn; [|done].
  destruct (getitem_index choices 0) as [choice|]; cbn; [|done].
  destruct (getitem choice "message") as [message|]; cbn; [|done].
  destruct (getitem message "content") as [content|]; cbn; [|done].
  destruct (json_loads E content) as [result|]; cbn; [|done].
  destruct (get_default data "usage" (PyDict [])) as [usage|]; cbn; [|done].
  intros [= <-]. by exists result, usage.
Qed.

(** A failure of the remote side is raised inside the [try]. *)
Lemma post_and_decode_remote_failure E api_key payload sent e :
  remote_failure E (request api_key payload) = Some e →
  fst (post_and_decode E endpoint_url (auth_headers api_key) payload sent) = Raise e.
Proof.
  rewrite post_and_decode_unfold; unfold remote_failure, request; cbn.
  destruct (post E _) as [resp|]; cbn; [|congruence].
  destruct (raise_for_status resp); cbn; [|congruence].
  destruct (body resp) as [data|]; cbn; [done|congruence].
Qed.

(** An invocation is the assembly of the prompt, then the guarded exchange
    with its [except] branch. *)
Lemma run_unfold E i sent :
  run E i sent =
  match full_prompt E i with
  | Raise e => (Raise e, sent)
  | Ok content =>
      match attempt E i content sent with
      | (Ok envelope, sent') => (Ok envelope, sent')
      | (Raise e, sent') => (Ok (error_envelope e), sent')
      end
  end.
Proof.
  destruct i as [api_key prompt resume_text output_schema model temperature
                |api_key prompt context_data output_schema model temperature].
  - reflexivity.
  - unfold run, full_prompt, structured_llm_call, io_bind, lift.
    destruct (context_loop E "" context_data); [|reflexivity].
    destruct (dumps E (PyDict output_schema)); reflexivity.
Qed.

(** The prompt of [structured_llm_call] is assembled from the context
    block and the schema text, in this order; the exception of either step
    is the exception of the assembly. *)
Lemma full_prompt_structured E api_key prompt context_data output_schema model temperature :
  full_prompt E (StructuredLlmCall api_key prompt context_data output_schema model temperature)
  = match context_loop E "" context_data with
    | Raise e => Raise e
    | Ok context_str =>
        match dumps E (PyDict output_schema) with
        | Raise e => Raise e
        | Ok schema_str => Ok (structured_prompt prompt context_str schema_str)
        end
    end.
Proof. reflexivity. Qed.

Lemma error_envelope_contract e attempted :
  attempted = Raise e → envelope_contract attempted (error_envelope e).
Proof. intros ->. repeat split. Qed.

Lemma success_envelope_contract result usage :
  envelope_contract (Ok (success_envelope result usage)) (success_envelope result usage).
Proof.
  repeat split; try done.
  - unfold non_null; cbn. by rewrite andb_false_r.
  - unfold exactly_one_non_null, non_null; cbn.
    destruct result; cbn; congruence.
  - unfold exactly_one_non_null, non_null; cbn.
    destruct result; cbn; congruence.
Qed.

(** C1, as stated, fails: when the model answers with the JSON text
    [null], [json.loads] returns [None] and the success path returns an
    envelope whose [result] and [error] are both null. *)
Lemma envelope_both_null_on_null_content :
  fst (analyze_resume null_reply "sk-or-1" "Rate this resume." "Jane Doe, welder" "{}"
         None None [])
  = Ok [("result", PyNone); ("error", PyNone); ("usage", PyDict [("total_tokens", PyInt 42)])]
  ∧ exactly_one_non_null
      [("result", PyNone); ("error", PyNone); ("usage", PyDict [("total_tokens", PyInt 42)])]
    = false.
Proof. split; vm_compute; reflexivity. Qed.

(** C1 (amended).  Every envelope a gateway function returns has the keys
    [result], [error], [usage], and its [result] and [error] are never both
    non-null.  On a failure path (the [try] raised [e]) it is
    [{result: None, error: str(e), usage: {}}]: [error] is non-null and
    [usage] is the empty mapping.  On the success path [error] is null and
    the envelope is the one the [try] returned, so exactly one of the two
    is non-null unless the decoded [result] is itself null. *)
Theorem envelope_contract_holds E i sent envelope :
  fst (run E i sent) = Ok envelope →
  ∃ content,
    full_prompt E i = Ok content ∧
    envelope_contract (fst (attempt E i content sent)) envelope.
Proof.
  rewrite run_unfold.
  destruct (full_prompt E i) as [content|e]; [|done].
  intros Hrun. exists content. split; [done|].
  pose proof (post_and_decode_returns E endpoint_url (auth_headers (api_key_of i))
                (payload_for i content) sent) as Hreturns.
  fold (attempt E i content) in Hreturns.
  destruct (attempt E i content sent) as [[returned|e] sent']; simpl fst in *.
  - injection Hrun as <-.
    destruct (Hreturns returned eq_refl) as (result & usage & ->).
    apply success_envelope_contract.
  - injection Hrun as <-. by apply error_envelope_contract.
Qed.

(** The contract at a refused connection. *)
Lemma envelope_contract_holds_witness :
  ∃ content,
    full_prompt unreachable
      (AnalyzeResume "sk-or-1" "Rate this resume." "Jane Doe, welder" "{}" None None)
    = Ok content ∧
    envelope_contract
      (fst (attempt unreachable
              (AnalyzeResume "sk-or-1" "Rate this resume." "Jane Doe, welder" "{}" None None)
              content []))
      (error_envelope (Raised "ConnectError" "[Errno 111] Connection refused")).
Proof.
  apply (envelope_contract_holds unreachable
           (AnalyzeResume "sk-or-1" "Rate this resume." "Jane Doe, welder" "{}" None None) []).
  vm_compute. reflexivity.
Defined.

(** C2, as stated, fails: [structured_llm_call] assembles its prompt before
    its [try], so an exception of the assembly reaches the caller.  A
    schema [json.dumps] rejects (here one holding a set) makes the call
    raise [TypeError]; a context value [str()] rejects (here an int of
    5001 digits) makes it raise [ValueError].  In both cases nothing is
    sent. *)
Lemma structured_llm_call_raises_on_set_schema :
  structured_llm_call unreachable "sk-or-1" "Pick the next action."
    [("resume", PyStr "Jane Doe, welder")] schema_with_set None None []
  = (Raise (TypeError "Object of type set is not JSON serializable"), [])
  ∧ structured_llm_call unreachable "sk-or-1" "Pick the next action."
      [("years", huge_int)] schema_of_texts None None []
    = (Raise (ValueError "Exceeds the limit (4300 digits) for integer string conversion; use sys.set_int_max_str_digits() to increase the limit"), []).
Proof. split; vm_compute; reflexivity. Qed.

(** C2 (amended).  An invocation of a gateway function whose prompt is
    assembled returns an envelope, whatever the remote side does, and
    every exception of the [try] -- in particular a network failure, a
    status outside 2xx and a body that does not decode -- ends as
    [{result: None, error: str(e), usage: {}}].  The prompt of
    [analyze_resume] is always assembled.  That of [structured_llm_call]
    is assembled before the [try], by the loop over the context and by
    [json.dumps] on the schema: an exception of the assembly is that of
    the loop or, when the loop has returned, that of [json.dumps]; it
    reaches the caller, and nothing is sent. *)
Theorem gateway_converts_failures E i sent :
  match full_prompt E i with
  | Ok content =>
      ∃ envelope,
        fst (run E i sent) = Ok envelope ∧
        (∀ e, fst (attempt E i content sent) = Raise e → envelope = error_envelope e) ∧
        (∀ e, remote_failure E (request (api_key_of i) (payload_for i content)) = Some e →
              envelope = [("result", PyNone); ("error", PyStr (exc_str e));
                          ("usage", PyDict [])])
  | Raise e =>
      run E i sent = (Raise e, sent) ∧
      ∃ api_key prompt context_data output_schema model temperature,
        i = StructuredLlmCall api_key prompt context_data output_schema model temperature ∧
        (context_loop E "" context_data = Raise e ∨
         context_loop E "" context_data = Ok (build_context context_data) ∧
         dumps E (PyDict output_schema) = Raise e)
  end.
Proof.
  destruct (full_prompt E i) as [content|e] eqn:Hprompt.
  - assert (Hconv : ∀ e, fst (attempt E i content sent) = Raise e →
                         fst (run E i sent) = Ok (error_envelope e)).
    { intros e He. rewrite run_unfold, Hprompt.
      destruct (attempt E i content sent) as [[?|?] ?]; cbn in *; congruence. }
    assert (Hret : ∃ envelope, fst (run E i sent) = Ok envelope).
    { rewrite run_unfold, Hprompt.
      destruct (attempt E i content sent) as [[?|?] ?]; cbn; eauto. }
    destruct Hret as [envelope Henv]. exists envelope.
    split; [done|]. split.
    + intros e He. apply Hconv in He. congruence.
    + intros e He.
      apply (post_and_decode_remote_failure E _ _ sent) in He.
      apply Hconv in He. unfold error_envelope in He. congruence.
  - split; [by rewrite run_unfold, Hprompt|].
    destruct i as [api_key prompt resume_text output_schema model temperature
                  |api_key prompt context_data output_schema model temperature].
    + discriminate.
    + exists api_key, prompt, context_data, output_schema, model, temperature.
      split; [done|].
      rewrite full_prompt_structured in Hprompt.
      destruct (context_loop E "" context_data) as [context_str|e'] eqn:Hloop.
      * right. apply AssemblerFacts.context_loop_returns in Hloop as Hblock. subst context_str.
        split; [done|].
        destruct (dumps E (PyDict output_schema)); congruence.
      * left. congruence.
Qed.

(** What an invocation hands to [client.post]: one request of the chat
    shape once its prompt is assembled, nothing before. *)
Lemma run_sends E i sent :
  match full_prompt E i with
  | Ok content =>
      snd (run E i sent) = sent ++ [request (api_key_of i) (payload_for i content)] ∧
      request_shape (api_key_of i) content (request (api_key_of i) (payload_for i content))
  | Raise e => run E i sent = (Raise e, sent)
  end.
Proof.
  rewrite run_unfold.
  destruct (full_prompt E i) as [content|e]; [|done].
  split.
  - pose proof (post_and_decode_sent E endpoint_url (auth_headers (api_key_of i))
                  (payload_for i content) sent) as Hsent.
    unfold attempt.
    destruct (post_and_decode _ _ _ _ _) as [[?|?] sent']; cbn in *; by subst.
  - split; [done|].
    destruct i; cbn; eexists; repeat split.
Qed.

(** C8, as stated, fails: not every invocation sends a request.  An
    invocation of [structured_llm_call] whose prompt cannot be assembled
    (here the schema holds a set) ends before its [try] and hands nothing
    to [client.post], where the same invocation with a schema of texts
    hands it one request. *)
Lemma no_request_on_set_schema :
  snd (structured_llm_call unreachable "sk-or-1" "Pick the next action."
         [("resume", PyStr "Jane Doe, welder")] schema_with_set None None [])
  = []
  ∧ length (snd (structured_llm_call unreachable "sk-or-1" "Pick the next action."
                   [("resume", PyStr "Jane Doe, welder")] schema_of_texts None None []))
    = 1.
Proof. split; vm_compute; reflexivity. Qed.

(** C8 (amended).  An invocation of [analyze_resume] hands exactly one
    request to [client.post], and so does an invocation of
    [structured_llm_call] whose prompt is assembled, that is, when the loop
    over the context and [json.dumps] on the schema return.  The request
    goes to the chat-completions URL with the bearer token in its
    [Authorization] header, and its body has exactly the keys [model],
    [messages], [temperature], [max_tokens] and [response_format], where
    [messages] is a single user message holding the assembled prompt and
    [response_format] is [{type: json_object}].  An invocation of
    [structured_llm_call] whose assembly raises sends nothing. *)
Theorem request_has_chat_shape :
  (∀ E api_key prompt resume_text output_schema model temperature sent,
      ∃ req,
        snd (analyze_resume E api_key prompt resume_text output_schema model temperature sent)
          = sent ++ [req] ∧
        url req = "https://openrouter.ai/api/v1/chat/completions" ∧
        request_shape api_key (resume_prompt prompt resume_text output_schema) req) ∧
  (∀ E api_key prompt context_data output_schema model temperature sent,
      match context_loop E "" context_data with
      | Raise e =>
          structured_llm_call E api_key prompt context_data output_schema
            model temperature sent = (Raise e, sent)
      | Ok context_str =>
          context_str = build_context context_data ∧
          match dumps E (PyDict output_schema) with
          | Raise e =>
              structured_llm_call E api_key prompt context_data output_schema
                model temperature sent = (Raise e, sent)
          | Ok schema_str =>
              ∃ req,
                snd (structured_llm_call E api_key prompt context_data output_schema
                       model temperature sent) = sent ++ [req] ∧
                url req = "https://openrouter.ai/api/v1/chat/completions" ∧
                request_shape api_key
                  (structured_prompt prompt (build_context context_data) schema_str) req
          end
      end).
Proof.
  split.
  - intros E api_key prompt resume_text output_schema model temperature sent.
    pose proof (run_sends E (AnalyzeResume api_key prompt resume_text output_schema
                               model temperature) sent) as [Hsent Hshape].
    eexists. split; [exact Hsent|]. split; [done|exact Hshape].
  - intros E api_key prompt context_data output_schema model temperature sent.
    pose proof (run_sends E (StructuredLlmCall api_key prompt context_data output_schema
                               model temperature) sent) as Hrun.
    rewrite full_prompt_structured in Hrun.
    destruct (context_loop E "" context_data) as [context_str|e] eqn:Hloop; [|exact Hrun].
    apply AssemblerFacts.context_loop_returns in Hloop as ->. split; [done|].
    destruct (dumps E (PyDict output_schema)) as [schema_str|e]; [|exact Hrun].
    destruct Hrun as [Hsent Hshape].
    eexists. split; [exact Hsent|]. split; [done|exact Hshape].
Qed.

(** ** The gateway on concrete worlds *)

Example analyze_resume_unreachable :
  fst (analyze_resume unreachable "sk-or-1" "Rate this resume." "Jane Doe, welder" "{}"
         None None [])
  = Ok [("result", PyNone); ("error", PyStr "[Errno 111] Connection refused");
        ("usage", PyDict [])].
Proof. vm_compute. reflexivity. Qed.

Example structured_llm_call_overloaded :
  fst (structured_llm_call overloaded "sk-or-1" "Pick the next action."
         [("resume", PyStr "Jane Doe, welder")] schema_of_texts None None [])
  = Ok [("result", PyNone); ("error", PyStr "Server error '503 Service Unavailable'");
        ("usage", PyDict [])].
Proof. vm_compute. reflexivity. Qed.

Example structured_llm_call_true :
  fst (structured_llm_call {| post := λ _, Ok (reply "true"); loads := decode_literal;
                              str_raises := str_error; dumps := dumps_indent_2 |}
         "sk-or-1" "Is the candidate a fit?" [("resume", PyStr "Jane Doe, welder")]
         schema_of_texts None None [])
  = Ok [("result", PyBool true); ("error", PyNone);
        ("usage", PyDict [("total_tokens", PyInt 42)])].
Proof. vm_compute. reflexivity. Qed.

(** A tuple in the schema is encoded as a list: the call goes through. *)
Example structured_llm_call_tuple_schema :
  structured_llm_call overloaded "sk-or-1" "Pick the next action."
    [("resume", PyStr "Jane Doe, welder")] [("pair", PyTuple [PyInt 1; PyInt 2])]
    None None []
  = (Ok [("result", PyNone); ("error", PyStr "Server error '503 Service Unavailable'");
         ("usage", PyDict [])],
     [Contract.request "sk-or-1"
        (chat_payload "anthropic/claude-3.5-sonnet"
           (structured_prompt "Pick the next action."
              (LF +:+ "RESUME:" +:+ LF +:+ "Jane Doe, welder" +:+ LF)
              ("{" +:+ LF +:+ "  " +:+ String DQUOTE "pair" +:+ String DQUOTE ": ["
               +:+ LF +:+ "    1," +:+ LF +:+ "    2" +:+ LF +:+ "  ]" +:+ LF +:+ "}"))
           "0.2" 2000)]).
Proof. vm_compute. reflexivity. Qed.

Example structured_prompt_layout :
  full_prompt unreachable
    (StructuredLlmCall "sk-or-1" "Pick the next action."
       [("resume", PyStr "Jane Doe"); ("notes", PyNone)] [] None None)
  = Ok ("Pick the next action." +:+ LF +:+ LF
        +:+ LF +:+ "RESUME:" +:+ LF +:+ "Jane Doe" +:+ LF
        +:+ LF +:+ "NOTES:" +:+ LF +:+ "None" +:+ LF
        +:+ LF +:+ LF
        +:+ "Return a JSON object with this exact structure:" +:+ LF
        +:+ "{}" +:+ LF +:+ LF
        +:+ "IMPORTANT: Return ONLY valid JSON, no additional text or markdown formatting.").
Proof. vm_compute. reflexivity. Qed.

End GatewayFacts.

(* ===================================================================== *)
(** * Properties of the tools and the registry                             *)
(* ===================================================================== *)

Module ToolsFacts.
Import Py Tools Contract.

(** ** The store *)

Lemma alloc_lookup o (σ : heap) : (alloc o σ).2 !! (alloc o σ).1 = Some o.
Proof. unfold alloc; cbn. apply lookup_insert_eq. Qed.

Lemma alloc_new o (σ : heap) : σ !! (alloc o σ).1 = None.
Proof. unfold alloc; cbn. apply not_elem_of_dom, is_fresh. Qed.

(** Allocation leaves every live object as it is. *)
Lemma alloc_frame o (σ : heap) l : is_Some (σ !! l) → (alloc o σ).2 !! l = σ !! l.
Proof.
  intros Hlive. unfold alloc; cbn. apply lookup_insert_ne.
  intros <-. apply elem_of_dom in Hlive. by apply is_fresh in Hlive.
Qed.

Lemma invoke_unfold f candidate_id kwargs (σ : heap) :
  invoke f candidate_id kwargs σ =
  match call f candidate_id kwargs with
  | Raise e => (Raise e, σ)
  | Ok d => (Ok (alloc (ODict d) σ).1, (alloc (ODict d) σ).2)
  end.
Proof. unfold invoke. by destruct (call f candidate_id kwargs). Qed.

Lemma invoke_frame f candidate_id kwargs (σ σ' : heap) r l :
  invoke f candidate_id kwargs σ = (r, σ') → is_Some (σ !! l) → σ' !! l = σ !! l.
Proof.
  rewrite invoke_unfold. destruct (call f candidate_id kwargs); intros [= <- <-] Hlive.
  - by apply alloc_frame.
  - done.
Qed.

Lemma step_frame (σ σ' : heap) l : step σ σ' → is_Some (σ !! l) → σ' !! l = σ !! l.
Proof. intros [f candidate_id kwargs r _ Hinvoke]. by eapply invoke_frame. Qed.

(** ** Lookup in the registry *)

Lemma mem_elem_of x l : mem x l = true ↔ x ∈ l.
Proof.
  unfold mem. rewrite existsb_exists. split.
  - intros (y & Hin & Heq). apply String.eqb_eq in Heq as ->. by apply list_elem_of_In.
  - intros Hin. exists x. split; [by apply list_elem_of_In|apply String.eqb_refl].
Qed.

Lemma lookup_key_elem_of {V} (l : list (string * V)) key :
  key ∈ map fst l → is_Some (lookup_key l key).
Proof.
  induction l as [|[k v] l IH]; cbn; [by intros ?%elem_of_nil|].
  intros [->|Hin]%elem_of_cons.
  - rewrite String.eqb_refl. eauto.
  - destruct (String.eqb k key); eauto.
Qed.

Lemma bad_keyword_fits fname filled names kwargs :
  (∀ kw, kw ∈ map fst kwargs → kw ∈ names ∧ kw ≠ filled) →
  bad_keyword fname filled names kwargs = None.
Proof.
  induction kwargs as [|[kw v] kwargs IH]; cbn; [done|]. intros Hfit.
  destruct (Hfit kw) as [Hin Hne]; [left|].
  apply mem_elem_of in Hin as ->. cbn.
  apply String.eqb_neq in Hne as ->.
  apply IH. intros kw' Hin'. apply Hfit. by right.
Qed.

(** The descriptors of the registry, by name. *)
Lemma registry_cases name d :
  lookup_key TOOL_REGISTRY name = Some d →
  (name, d) ∈ TOOL_REGISTRY.
Proof.
  generalize TOOL_REGISTRY. intros registry.
  induction registry as [|[k v] registry IH]; cbn; [done|].
  destruct (String.eqb_spec k name) as [->|].
  - intros [= ->]. left.
  - intros Hin. right. by apply IH.
Qed.

(** Case analysis on a descriptor found in the registry. *)
Ltac by_registry H :=
  apply registry_cases in H; unfold TOOL_REGISTRY in H;
  repeat (apply elem_of_cons in H as [[= -> ->]|H]);
  [..|by apply elem_of_nil in H].

(** A keyword the declared parameters allow fits the signature. *)
Ltac keyword_fits Hdecl :=
  let kw := fresh "kw" in
  let Hkw := fresh "Hkw" in
  intros kw Hkw; apply Hdecl in Hkw;
  rewrite ?elem_of_cons, ?elem_of_nil in Hkw;
  repeat match goal with
         | H : _ ∨ _ |- _ => destruct H as [->|H]
         | H : False |- _ => destruct H
         end;
  (split; [rewrite ?elem_of_cons; auto 10|discriminate]).

(** The value the keywords give to a declared parameter. *)
Ltac keyword_value Hdecl kwargs p :=
  let Hsome := fresh "Hsome" in
  destruct (lookup_key_elem_of kwargs p) as [? Hsome];
  [apply Hdecl; rewrite ?elem_of_cons; auto 10|rewrite Hsome].

(** C4.  The registry has exactly seven entries, under the names
    [schedule_technical_assessment], [route_to_department],
    [request_additional_info], [reject_application],
    [flag_for_manual_review], [send_email] and [done]; each descriptor
    carries the function of that name, a description, and a parameter
    schema that lists the parameters of the function, the first being
    [candidate_id].  The registry is the object the import creates, and no
    run of the tools adds, removes or changes an entry of it. *)
Theorem registry_static :
  map fst TOOL_REGISTRY =
    ["schedule_technical_assessment"; "route_to_department"; "request_additional_info";
     "reject_application"; "flag_for_manual_review"; "send_email"; "done"] ∧
  length TOOL_REGISTRY = 7 ∧
  NoDup (map fst TOOL_REGISTRY) ∧
  Forall (λ entry,
            func_name (function entry.2) = entry.1 ∧
            signature (function entry.2) = map fst (parameters entry.2) ∧
            hd "" (map fst (parameters entry.2)) = "candidate_id" ∧
            description entry.2 ≠ "") TOOL_REGISTRY ∧
  (∀ (σ0 σ : heap), reachable σ0 σ →
      σ !! (import_module σ0).1 = Some (ORegistry TOOL_REGISTRY)).
Proof.
  split; [done|]. split; [done|]. split.
  { apply (bool_decide_unpack _). by vm_compute. }
  split.
  { unfold TOOL_REGISTRY. repeat (apply Forall_cons; split; [done|]). apply Forall_nil_2. }
  intros σ0 σ Hreach. induction Hreach as [|σ σ' _ IH Hstep].
  - apply alloc_lookup.
  - rewrite <- IH. apply step_frame; [done|]. rewrite IH. eauto.
Qed.

(** C7.  For every candidate and every reason, the dict
    [reject_application] returns has [status] equal to ["success"] and
    [rejection_email_sent] equal to [True]; and that is the function the
    registry holds under [reject_application]: called through the registry
    with the reason as its one keyword, it creates a new object with that
    content. *)
Theorem reject_application_outcome candidate_id reason :
  dict_get (reject_application candidate_id reason) "status" = Some (PyStr "success") ∧
  dict_get (reject_application candidate_id reason) "rejection_email_sent"
    = Some (PyBool true) ∧
  ∃ d, lookup_key TOOL_REGISTRY "reject_application" = Some d ∧
       call (function d) candidate_id [("reason", reason)]
         = Ok (reject_application candidate_id reason) ∧
       ∀ σ : heap, ∃ l (σ' : heap),
         invoke (function d) candidate_id [("reason", reason)] σ = (Ok l, σ') ∧
         σ !! l = None ∧
         σ' !! l = Some (ODict (reject_application candidate_id reason)).
Proof.
  split; [done|]. split; [done|]. eexists. split; [reflexivity|]. split; [reflexivity|].
  intros σ. rewrite invoke_unfold.
  change (call _ candidate_id [("reason", reason)])
    with (Ok (A:=dict) (reject_application candidate_id reason)).
  eexists _, _. split; [reflexivity|]. split; [apply alloc_new|apply alloc_lookup].
Qed.

(** C9.  A registered handler called with [candidate_id] and exactly the
    parameters its descriptor declares returns an outcome whose [status] is
    ["success"]; and whatever it is called with, an outcome it returns has
    [status] equal to ["success"], never ["failure"]. *)
Theorem registered_handlers_succeed name d candidate_id kwargs :
  lookup_key TOOL_REGISTRY name = Some d →
  (∀ p, p ∈ map fst kwargs ↔ p ∈ keyword_parameters d) →
  (∃ outcome, call (function d) candidate_id kwargs = Ok outcome ∧
              dict_get outcome "status" = Some (PyStr "success")) ∧
  (∀ candidate_id' kwargs' outcome,
      call (function d) candidate_id' kwargs' = Ok outcome →
      dict_get outcome "status" = Some (PyStr "success") ∧
      dict_get outcome "status" ≠ Some (PyStr "failure")).
Proof.
  intros Hd Hdecl. split.
  - by_registry Hd; vm_compute keyword_parameters in Hdecl;
      unfold call; cbn [function func_name signature hd];
      (rewrite bad_keyword_fits by keyword_fits Hdecl).
    + keyword_value Hdecl kwargs "assessment_type". eauto.
    + keyword_value Hdecl kwargs "department".
      keyword_value Hdecl kwargs "reason". eauto.
    + keyword_value Hdecl kwargs "info_needed". eauto.
    + keyword_value Hdecl kwargs "reason". eauto.
    + keyword_value Hdecl kwargs "concern". eauto.
    + keyword_value Hdecl kwargs "template". eauto.
    + eauto.
  - clear Hdecl. intros candidate_id' kwargs' outcome.
    by_registry Hd; unfold call; cbn [function func_name signature hd];
      (destruct (bad_keyword _ _ _ _); [done|]);
      repeat case_match; intros [= <-]; done.
Qed.

(** [reject_application] called with its declared [reason]. *)
Lemma registered_handlers_succeed_witness :
  (∃ outcome,
      call (Def2 "reject_application" "candidate_id" "reason" reject_application)
        "c-17" [("reason", "skills mismatch")] = Ok outcome ∧
      dict_get outcome "status" = Some (PyStr "success")) ∧
  (∀ candidate_id' kwargs' outcome,
      call (Def2 "reject_application" "candidate_id" "reason" reject_application)
        candidate_id' kwargs' = Ok outcome →
      dict_get outcome "status" = Some (PyStr "success") ∧
      dict_get outcome "status" ≠ Some (PyStr "failure")).
Proof.
  apply (registered_handlers_succeed "reject_application"
           {| function := Def2 "reject_application" "candidate_id" "reason" reject_application;
              description := "Reject the candidate's application with a reason";
              parameters :=
                [("candidate_id", "string - The candidate's ID");
                 ("reason", "string - Reason for rejection (be professional and constructive)")] |}
           "c-17" [("reason", "skills mismatch")]).
  - reflexivity.
  - intros p. reflexivity.
Defined.

End ToolsFacts.

(* ===================================================================== *)
(** * More on Python values: induction, prefixes, [json.dumps]             *)
(* ===================================================================== *)

Module PyFacts.
Import Py Coverage StringFacts.

(** ** Prefixes *)

Lemma prefix_app_exact n s t : String.length s = n → prefix n (s +:+ t) = s.
Proof.
  unfold prefix. revert n. induction s as [|c s IH]; intros n <-; cbn.
  - by destruct t.
  - change (String c s +:+ t) with (String c (s +:+ t)). cbn. by rewrite IH.
Qed.

Lemma prefix_app_long n s t : n ≤ String.length s → prefix n (s +:+ t) = prefix n s.
Proof.
  unfold prefix. revert s. induction n as [|n IH]; intros [|c s] Hlen; cbn in *; try lia.
  - by destruct t.
  - done.
  - change (String c s +:+ t) with (String c (s +:+ t)). cbn. rewrite IH; [done|lia].
Qed.

Lemma length_string_map f s : String.length (string_map f s) = String.length s.
Proof. induction s as [|c s IH]; cbn; [done|by rewrite IH]. Qed.

(** Upper-casing an ASCII text keeps its length. *)
Lemma length_upper s : is_ascii s = true → String.length (upper s) = String.length s.
Proof. intros Hascii. apply length_string_map. Qed.

End PyFacts.

(* ===================================================================== *)
(** * More on [load_resumes]                                               *)
(* ===================================================================== *)

Module LoaderMore.
Import Py Loader Contract Examples Coverage LoaderFacts.
Local Set Warnings "-clear-no-such-hyp".

(** What a load that returns has stored. *)
Lemma load_resumes_Ok_inv (fs : FileSystem) csv_path rows resumes :
  fs csv_path = Ok rows → load_resumes fs csv_path = Ok resumes →
  Forall complete rows ∧ ∀ key, resumes !! key = entry_of <$> latest key rows.
Proof.
  unfold load_resumes. intros ->. cbn. intros Hload.
  pose proof (store_rows_inv rows ∅) as Hinv. rewrite Hload in Hinv.
  destruct Hinv as [Hall Hlookup]. split; [done|].
  intros key. rewrite Hlookup. destruct (latest key rows); [done|apply lookup_empty].
Qed.

(** A load that raises has met a row that lacks a column. *)
Lemma load_resumes_Raise_inv (fs : FileSystem) csv_path rows e :
  fs csv_path = Ok rows → load_resumes fs csv_path = Raise e →
  ¬ Forall complete rows.
Proof.
  intros Hfs Hload Hall.
  destruct (load_resumes_returns fs csv_path rows Hfs Hall) as [resumes Hok].
  congruence.
Qed.

Lemma latest_elem_of key (rows : list row) r :
  latest key rows = Some r → r ∈ rows ∧ r !! "ID" = Some key.
Proof.
  intros (before & after & -> & Hid & _)%latest_split. split; [|done].
  apply elem_of_app. right. left.
Qed.

Lemma latest_None key (rows : list row) r :
  latest key rows = None → r ∈ rows → r !! "ID" ≠ Some key.
Proof.
  intros Hnone Hin Hid.
  assert (is_Some (latest key rows)) as [? ?] by (apply latest_is_Some; eauto).
  congruence.
Qed.

(** In a concatenation the later part decides. *)
Lemma latest_app key (rows1 rows2 : list row) :
  latest key (rows1 ++ rows2) =
  match latest key rows2 with
  | Some r => Some r
  | None => latest key rows1
  end.
Proof.
  induction rows1 as [|r rows1 IH]; cbn.
  - by destruct (latest key rows2).
  - rewrite IH. by destruct (latest key rows2).
Qed.

(** With distinct IDs the row of an ID is the only one of that ID. *)
Lemma latest_NoDup key (rows : list row) r :
  NoDup (ids rows) → r ∈ rows → r !! "ID" = Some key → latest key rows = Some r.
Proof.
  induction rows as [|r0 rows IH]; cbn; [by intros _ ?%elem_of_nil|].
  intros [Hnotin Hnodup]%NoDup_cons [->|Hin]%elem_of_cons Hid.
  - destruct (latest key rows) as [r'|] eqn:Hlatest.
    + apply latest_elem_of in Hlatest as [Hin' Hid'].
      destruct Hnotin. rewrite Hid, <- Hid'. unfold ids.
      apply list_elem_of_fmap. by exists r'.
    + by rewrite decide_True.
  - by rewrite (IH Hnodup Hin Hid).
Qed.

(** The keys of the mapping, as a set. *)
Lemma load_resumes_dom (rows : list row) (resumes : gmap cell entry) :
  (∀ key, resumes !! key = entry_of <$> latest key rows) →
  dom resumes = list_to_set (omap (λ r, r !! "ID") rows).
Proof.
  intros Hlookup. apply set_eq. intros key.
  rewrite elem_of_dom, Hlookup, elem_of_list_to_set, list_elem_of_omap.
  rewrite <- latest_is_Some. destruct (latest key rows); cbn; split; eauto.
  - by intros [? ?].
  - by intros [? ?].
Qed.

Lemma size_list_to_set_le (l : list cell) : size (list_to_set (C:=gset cell) l) ≤ length l.
Proof.
  induction l as [|x l IH]; cbn; [by rewrite size_empty|].
  rewrite size_union_alt, size_singleton.
  assert (size (list_to_set (C:=gset cell) l ∖ {[x]}) ≤ size (list_to_set (C:=gset cell) l))
    by (apply subseteq_size; set_solver).
  lia.
Qed.

Lemma size_list_to_set_NoDup (l : list cell) :
  size (list_to_set (C:=gset cell) l) = length l → NoDup l.
Proof.
  induction l as [|x l IH]; cbn; [constructor|]. intros Hsize.
  pose proof (size_list_to_set_le l) as Hle.
  destruct (decide (x ∈ l)) as [Hin|Hnotin].
  - assert ({[x]} ∪ list_to_set (C:=gset cell) l = list_to_set l) as Heq by set_solver.
    rewrite Heq in Hsize. lia.
  - constructor; [done|]. apply IH.
    rewrite size_union, size_singleton in Hsize by set_solver. lia.
Qed.

Lemma complete_ids (rows : list row) :
  Forall complete rows → ids rows = Some <$> omap (λ r, r !! "ID") rows.
Proof.
  induction 1 as [|r rows [[key Hid] _] _ IH]; cbn; [done|].
  rewrite Hid. cbn. by rewrite <- IH.
Qed.

(** X1.  Every entry of the mapping is stored under the ID it holds:
    [resumes[k]['ID'] == k] for every key [k]. *)
Theorem load_resumes_entry_under_its_id (fs : FileSystem) csv_path resumes key e :
  load_resumes fs csv_path = Ok resumes →
  resumes !! key = Some e →
  lookup_key e "ID" = Some key.
Proof.
  intros Hload Hkey.
  destruct (fs csv_path) as [rows|x] eqn:Hfs;
    [|unfold load_resumes in Hload; by rewrite Hfs in Hload].
  destruct (load_resumes_Ok_inv fs csv_path rows resumes Hfs Hload) as [_ Hlookup].
  rewrite Hlookup in Hkey.
  destruct (latest key rows) as [r|] eqn:Hlatest; [|done].
  injection Hkey as <-. apply latest_elem_of in Hlatest as [_ Hid].
  unfold entry_of, cell in *. by rewrite Hid.
Qed.

(** The entry the sample file leaves under ID 1. *)
Lemma load_resumes_entry_under_its_id_witness :
  lookup_key [("ID", Some "1"); ("Resume_str", Some "third");
              ("Resume_html", Some "<p>third</p>")] "ID" = Some (Some "1").
Proof.
  apply (load_resumes_entry_under_its_id sample_fs "resumes.csv"
           (<[Some "1" := [("ID", Some "1"); ("Resume_str", Some "third");
                           ("Resume_html", Some "<p>third</p>")]]>
              (<[Some "2" := [("ID", Some "2"); ("Resume_str", Some "second");
                              ("Resume_html", Some "<p>second</p>")]]> ∅))).
  - vm_compute. reflexivity.
  - vm_compute. reflexivity.
Defined.

(** X2.  The mapping has at most one entry per row, and exactly one per
    row precisely when no two rows have the same ID. *)
Theorem load_resumes_size (fs : FileSystem) csv_path rows resumes :
  fs csv_path = Ok rows →
  load_resumes fs csv_path = Ok resumes →
  size resumes ≤ length rows ∧ (size resumes = length rows ↔ NoDup (ids rows)).
Proof.
  intros Hfs Hload.
  destruct (load_resumes_Ok_inv fs csv_path rows resumes Hfs Hload) as [Hall Hlookup].
  pose proof (load_resumes_dom rows resumes Hlookup) as Hdom.
  pose proof (complete_ids rows Hall) as Hids.
  assert (length (omap (λ r : row, r !! "ID") rows) = length rows) as Hlen.
  { rewrite <- (length_fmap Some), <- Hids. unfold ids. by rewrite length_map. }
  rewrite <- (size_dom resumes), Hdom, <- Hlen, Hids.
  split; [apply size_list_to_set_le|]. split.
  - intros Hsize. apply NoDup_fmap; [apply _|]. by apply size_list_to_set_NoDup.
  - intros Hnodup. apply size_list_to_set.
    by apply (NoDup_fmap_1 Some).
Qed.

(** The sample file has three rows and two distinct IDs. *)
Lemma load_resumes_size_witness :
  size (<[Some "1" := [("ID", Some "1"); ("Resume_str", Some "third");
                       ("Resume_html", Some "<p>third</p>")]]>
          (<[Some "2" := [("ID", Some "2"); ("Resume_str", Some "second");
                          ("Resume_html", Some "<p>second</p>")]]>
             (∅ : gmap cell entry))) ≤ length sample_rows
  ∧ (size (<[Some "1" := [("ID", Some "1"); ("Resume_str", Some "third");
                          ("Resume_html", Some "<p>third</p>")]]>
             (<[Some "2" := [("ID", Some "2"); ("Resume_str", Some "second");
                             ("Resume_html", Some "<p>second</p>")]]>
                (∅ : gmap cell entry))) = length sample_rows
     ↔ NoDup (ids sample_rows)).
Proof.
  apply (load_resumes_size sample_fs "resumes.csv").
  - reflexivity.
  - vm_compute. reflexivity.
Defined.

(** X3.  When no two rows have the same ID the order of the rows does not
    matter: a file with the same rows in another order loads to the same
    mapping (and fails to load if the first does). *)
Theorem load_resumes_order_irrelevant (rows rows' : list row) csv_path csv_path' :
  rows ≡ₚ rows' →
  NoDup (ids rows) →
  match load_resumes (λ _, Ok rows) csv_path with
  | Ok resumes => load_resumes (λ _, Ok rows') csv_path' = Ok resumes
  | Raise _ => ∃ e, load_resumes (λ _, Ok rows') csv_path' = Raise e
  end.
Proof.
  intros Hperm Hnodup.
  assert (NoDup (ids rows')) as Hnodup'.
  { unfold ids in *. by rewrite <- Hperm. }
  destruct (load_resumes (λ _, Ok rows) csv_path) as [resumes|e] eqn:Hload.
  - destruct (load_resumes_Ok_inv _ _ rows resumes eq_refl Hload) as [Hall Hlookup].
    destruct (load_resumes_returns (λ _, Ok rows') csv_path' rows' eq_refl)
      as [resumes' Hload']; [by rewrite <- Hperm|].
    rewrite Hload'. f_equal. apply map_eq. intros key.
    destruct (load_resumes_Ok_inv _ _ rows' resumes' eq_refl Hload') as [_ Hlookup'].
    rewrite Hlookup, Hlookup'.
    destruct (latest key rows) as [r|] eqn:Hlatest.
    + apply latest_elem_of in Hlatest as [Hin Hid].
      rewrite (latest_NoDup key rows' r); [done|done|by rewrite <- Hperm|done].
    + destruct (latest key rows') as [r'|] eqn:Hlatest'; [|done].
      apply latest_elem_of in Hlatest' as [Hin' Hid'].
      destruct (latest_None key rows r' Hlatest); [by rewrite Hperm|done].
  - destruct (load_resumes (λ _, Ok rows') csv_path') as [resumes'|e'] eqn:Hload'; [|eauto].
    destruct (load_resumes_Ok_inv _ _ rows' resumes' eq_refl Hload') as [Hall' _].
    destruct (load_resumes_Raise_inv _ _ rows e eq_refl Hload). by rewrite Hperm.
Qed.

(** Two rows of distinct IDs, in both orders. *)
Lemma load_resumes_order_irrelevant_witness :
  match load_resumes (λ _, Ok [csv_row "1" "first" "<p>first</p>";
                               csv_row "2" "second" "<p>second</p>"]) "a.csv" with
  | Ok resumes =>
      load_resumes (λ _, Ok [csv_row "2" "second" "<p>second</p>";
                             csv_row "1" "first" "<p>first</p>"]) "b.csv" = Ok resumes
  | Raise _ =>
      ∃ e, load_resumes (λ _, Ok [csv_row "2" "second" "<p>second</p>";
                                  csv_row "1" "first" "<p>first</p>"]) "b.csv" = Raise e
  end.
Proof.
  apply (load_resumes_order_irrelevant
           [csv_row "1" "first" "<p>first</p>"; csv_row "2" "second" "<p>second</p>"]
           [csv_row "2" "second" "<p>second</p>"; csv_row "1" "first" "<p>first</p>"]).
  - apply perm_swap.
  - apply (bool_decide_unpack _). vm_compute. reflexivity.
Defined.

(** X4.  Loading the rows of two files one after the other gives the
    mapping of the second file over that of the first: an ID of both has
    the entry of the second.  If either part fails to load, so does the
    whole. *)
Theorem load_resumes_concat (rows1 rows2 : list row) csv_path :
  match load_resumes (λ _, Ok rows1) csv_path, load_resumes (λ _, Ok rows2) csv_path with
  | Ok resumes1, Ok resumes2 =>
      load_resumes (λ _, Ok (rows1 ++ rows2)) csv_path = Ok (resumes2 ∪ resumes1)
  | _, _ => ∃ e, load_resumes (λ _, Ok (rows1 ++ rows2)) csv_path = Raise e
  end.
Proof.
  destruct (load_resumes (λ _, Ok rows1) csv_path) as [resumes1|e1] eqn:Hload1.
  - destruct (load_resumes (λ _, Ok rows2) csv_path) as [resumes2|e2] eqn:Hload2.
    + destruct (load_resumes_Ok_inv _ _ rows1 resumes1 eq_refl Hload1) as [Hall1 Hlookup1].
      destruct (load_resumes_Ok_inv _ _ rows2 resumes2 eq_refl Hload2) as [Hall2 Hlookup2].
      destruct (load_resumes_returns (λ _, Ok (rows1 ++ rows2)) csv_path (rows1 ++ rows2)
                  eq_refl) as [resumes Hload]; [by apply Forall_app|].
      rewrite Hload. f_equal. apply map_eq. intros key.
      destruct (load_resumes_Ok_inv _ _ _ resumes eq_refl Hload) as [_ Hlookup].
      rewrite Hlookup, latest_app, lookup_union, Hlookup1, Hlookup2.
      by destruct (latest key rows2), (latest key rows1).
    + destruct (load_resumes (λ _, Ok (rows1 ++ rows2)) csv_path) as [resumes|e] eqn:Hload;
        [|eauto].
      destruct (load_resumes_Ok_inv _ _ _ resumes eq_refl Hload) as [Hall _].
      apply Forall_app in Hall as [_ Hall2].
      by destruct (load_resumes_Raise_inv _ _ rows2 e2 eq_refl Hload2).
  - destruct (load_resumes (λ _, Ok (rows1 ++ rows2)) csv_path) as [resumes|e] eqn:Hload.
    + destruct (load_resumes_Ok_inv _ _ _ resumes eq_refl Hload) as [Hall _].
      apply Forall_app in Hall as [Hall1 _].
      by destruct (load_resumes_Raise_inv _ _ rows1 e1 eq_refl Hload1).
    + destruct (load_resumes (λ _, Ok rows2) csv_path); eauto.
Qed.

End LoaderMore.

(* ===================================================================== *)
(** * More on the context assembler                                        *)
(* ===================================================================== *)

Module AssemblerMore.
Import Py Gateway Contract Examples Coverage StringFacts PyFacts AssemblerFacts.

(** A long str rendered: its first 5000 characters and the marker. *)
Lemma truncate_long s :
  field_limit < String.length s →
  truncate (PyStr s) = PyStr (prefix field_limit s +:+ truncation_marker).
Proof. intros Hlong. rewrite truncate_str. by apply Nat.ltb_lt in Hlong as ->. Qed.

Lemma truncate_short s :
  String.length s ≤ field_limit → truncate (PyStr s) = PyStr s.
Proof. intros Hshort. rewrite truncate_str. by apply Nat.ltb_ge in Hshort as ->. Qed.

(** X5.  Cutting is idempotent: a value that went through the cut is left
    as it is by a second cut, so a rendered field fed back into a bundle
    does not collect a second marker. *)
Theorem truncate_idempotent value : truncate (truncate value) = truncate value.
Proof.
  destruct value as [| | | |s| | | |]; try done.
  destruct (decide (field_limit < String.length s)) as [Hlong|Hshort].
  - rewrite (truncate_long s Hlong).
    rewrite truncate_long.
    + rewrite prefix_app_exact; [done|]. rewrite length_prefix. lia.
    + rewrite length_app, length_prefix.
      assert (0 < String.length truncation_marker) by (vm_compute; lia). lia.
  - rewrite (truncate_short s) by lia. apply truncate_short. lia.
Qed.

(** X6.  The block of a bundle followed by more fields is the block of
    the bundle followed by the block of those fields: each field is
    rendered on its own, whatever surrounds it. *)
Theorem build_context_app context_data more :
  build_context (context_data ++ more)
  = build_context context_data +:+ build_context more.
Proof.
  unfold build_context at 1. rewrite fold_left_app, build_context_fold.
  fold (build_context context_data). by rewrite <- build_context_concat.
Qed.

Lemma length_context_field key value :
  is_ascii key = true →
  String.length (context_field (key, value))
  = String.length key + String.length (rendered value) + 4.
Proof.
  intros Hascii. unfold context_field, rendered. cbn [fst snd].
  rewrite !length_app, (length_upper key Hascii).
  change (String.length LF) with 1. change (String.length ":") with 1. lia.
Qed.

(** X7.  For a bundle whose keys are ASCII text and whose values are all
    of class [str], the loop returns, and the length of the context block
    is at most the lengths of the keys plus 5020 per field (5000
    characters, the 16 of the marker, and 4 of layout), whatever the
    lengths of the values.  (On ASCII keys upper-casing keeps the length
    of the key.) *)
Theorem build_context_bounded E context_data :
  ascii_keyed context_data →
  str_valued context_data →
  ∃ block,
    context_loop E "" context_data = Ok block ∧
    String.length block
    ≤ keys_length context_data
      + length context_data * (field_limit + String.length truncation_marker + 4).
Proof.
  intros Hkeys Hstr. exists (build_context context_data). split.
  { apply context_loop_formats. eapply Forall_impl; [exact Hstr|].
    intros [key value] [s Hs]; cbn [snd] in *. subst value.
    exists (py_str (truncate (PyStr s))). apply format_value_plain.
    cbn [truncate]. by destruct (_ <? _)%nat. }
  induction context_data as [|[key value] context_data IH]; [done|].
  apply Forall_cons in Hkeys as [Hkey Hkeys]. apply Forall_cons in Hstr as [[s Hs] Hstr].
  specialize (IH Hkeys Hstr). cbn [fst snd] in Hkey, Hs. subst value.
  change ((key, PyStr s) :: context_data) with ([(key, PyStr s)] ++ context_data).
  rewrite build_context_app, length_app.
  change (build_context [(key, PyStr s)]) with ("" +:+ context_field (key, PyStr s)).
  change ("" +:+ context_field (key, PyStr s)) with (context_field (key, PyStr s)).
  rewrite (length_context_field key (PyStr s) Hkey).
  pose proof (rendered_str_bounded s) as Hbound.
  cbn [app keys_length foldr fst length]. fold (keys_length context_data).
  lia.
Qed.

(** A bundle of one resume of 5001 characters. *)
Lemma build_context_bounded_witness :
  ∃ block,
    context_loop unreachable "" [("resume", PyStr long_resume)] = Ok block ∧
    String.length block
    ≤ keys_length [("resume", PyStr long_resume)]
      + length [("resume", PyStr long_resume)]
        * (field_limit + String.length truncation_marker + 4).
Proof.
  apply (build_context_bounded unreachable [("resume", PyStr long_resume)]).
  - repeat constructor.
  - repeat constructor. by exists long_resume.
Defined.

(** The loop sees a bundle through the cut of its values. *)
Lemma context_loop_ext E context_data context_data' acc :
  map (λ kv, (fst kv, truncate (snd kv))) context_data
  = map (λ kv, (fst kv, truncate (snd kv))) context_data' →
  context_loop E acc context_data = context_loop E acc context_data'.
Proof.
  revert context_data' acc.
  induction context_data as [|[key value] context_data IH];
    intros [|[key' value'] context_data'] acc; try done.
  cbn [map fst snd]. intros [= -> Hvalue Hrest].
  cbn [context_loop]. rewrite Hvalue.
  destruct (format_value E (truncate value')); [|done]. by apply IH.
Qed.

(** X8.  Only the first 5000 characters of a str field of more than 5000
    count in a call of [structured_llm_call]: two calls whose bundles
    differ in one such field, which has the same first 5000 characters in
    both, send the same request and have the same outcome. *)
Theorem structured_llm_call_ignores_tail E api_key prompt before key s s' after
    output_schema model temperature sent :
  field_limit < String.length s →
  field_limit < String.length s' →
  prefix field_limit s = prefix field_limit s' →
  structured_llm_call E api_key prompt
    (before ++ (key, PyStr s) :: after) output_schema model temperature sent
  = structured_llm_call E api_key prompt
      (before ++ (key, PyStr s') :: after) output_schema model temperature sent.
Proof.
  intros Hlong Hlong' Hprefix. unfold structured_llm_call.
  assert (context_loop E "" (before ++ (key, PyStr s) :: after)
          = context_loop E "" (before ++ (key, PyStr s') :: after)) as ->; [|done].
  apply context_loop_ext. rewrite !map_app. f_equal. cbn [map fst snd]. f_equal.
  by rewrite (truncate_long s Hlong), (truncate_long s' Hlong'), Hprefix.
Qed.

(** Two resumes of more than 5000 characters that differ from the 5001st
    character on. *)
Lemma structured_llm_call_ignores_tail_witness :
  structured_llm_call unreachable "sk-or-1" "Pick the next action."
    ([] ++ ("resume", PyStr long_resume) :: []) schema_of_texts None None []
  = structured_llm_call unreachable "sk-or-1" "Pick the next action."
      ([] ++ ("resume", PyStr other_long_resume) :: []) schema_of_texts None None [].
Proof.
  apply (structured_llm_call_ignores_tail unreachable "sk-or-1" "Pick the next action."
           [] "resume" long_resume other_long_resume []).
  - apply Nat.ltb_lt. vm_compute. reflexivity.
  - apply Nat.ltb_lt. vm_compute. reflexivity.
  - vm_compute. reflexivity.
Defined.

(** X9.  What follows the first 3000 characters of the resume has no
    effect on a call of [analyze_resume]. *)
Theorem analyze_resume_ignores_tail E api_key prompt resume_text tail output_schema
    model temperature sent :
  3000 ≤ String.length resume_text →
  analyze_resume E api_key prompt (resume_text +:+ tail) output_schema model temperature sent
  = analyze_resume E api_key prompt resume_text output_schema model temperature sent.
Proof.
  intros Hlong. unfold analyze_resume, resume_prompt.
  by rewrite prefix_app_long.
Qed.

(** A resume of 5001 characters and the same followed by more text. *)
Lemma analyze_resume_ignores_tail_witness :
  analyze_resume unreachable "sk-or-1" "Rate this resume." (long_resume +:+ ", and more")
    "{}" None None []
  = analyze_resume unreachable "sk-or-1" "Rate this resume." long_resume "{}" None None [].
Proof.
  apply (analyze_resume_ignores_tail unreachable "sk-or-1" "Rate this resume."
           long_resume ", and more").
  apply Nat.leb_le. vm_compute. reflexivity.
Defined.

End AssemblerMore.

(* ===================================================================== *)
(** * More on the completion gateway                                       *)
(* ===================================================================== *)

Module GatewayMore.
Import Py Gateway Contract Examples Coverage PyFacts GatewayFacts.

Lemma raise_for_status_success resp : success_status resp → raise_for_status resp = Ok tt.
Proof.
  unfold success_status, raise_for_status. intros [Hlo Hhi].
  apply Z.leb_le in Hlo as ->. by apply Z.leb_le in Hhi as ->.
Qed.

Lemma raise_for_status_failure resp :
  ¬ success_status resp →
  raise_for_status resp = Raise (Raised "HTTPStatusError" (status_error resp)).
Proof.
  unfold success_status, raise_for_status. intros Hfail.
  destruct (200 <=? status_code resp)%Z eqn:Hlo; [|done].
  destruct (status_code resp <=? 299)%Z eqn:Hhi; [|done].
  destruct Hfail. split; by apply Z.leb_le.
Qed.

(** An invocation whose prompt is assembled and whose request gets a
    response: the envelope is that of the rest of the [try]. *)
Lemma run_response E i sent content resp :
  full_prompt E i = Ok content →
  post E (request (api_key_of i) (payload_for i content)) = Ok resp →
  fst (run E i sent) =
  match (checked ← raise_for_status resp;
         data ← body resp;
         choices ← getitem data "choices";
         choice ← getitem_index choices 0;
         message ← getitem choice "message";
         content ← getitem message "content";
         result ← json_loads E content;
         usage ← get_default data "usage" (PyDict []);
         Ok (success_envelope result usage)) with
  | Ok envelope => Ok envelope
  | Raise e => Ok (error_envelope e)
  end.
Proof.
  intros Hprompt Hpost. rewrite run_unfold, Hprompt. unfold attempt.
  rewrite post_and_decode_unfold. cbn zeta. unfold request in Hpost. rewrite Hpost.
  cbn [mbind Result_bind fst].
  by destruct (raise_for_status resp ≫= _).
Qed.

(** The same once the response is a 2xx whose body decodes to a dict. *)
Lemma run_answered E i sent content data :
  full_prompt E i = Ok content →
  answered E (request (api_key_of i) (payload_for i content)) data →
  fst (run E i sent) =
  match (choices ← getitem (PyDict data) "choices";
         choice ← getitem_index choices 0;
         message ← getitem choice "message";
         content ← getitem message "content";
         result ← json_loads E content;
         usage ← get_default (PyDict data) "usage" (PyDict []);
         Ok (success_envelope result usage)) with
  | Ok envelope => Ok envelope
  | Raise e => Ok (error_envelope e)
  end.
Proof.
  intros Hprompt (resp & Hpost & Hstatus & Hbody).
  rewrite (run_response E i sent content resp Hprompt Hpost).
  rewrite (raise_for_status_success resp Hstatus), Hbody. done.
Qed.

(** X11.  The status is checked before the body is read: for a response
    with a status outside 2xx the envelope carries the status error,
    whatever the body holds, even a well-formed completion. *)
Theorem status_checked_before_body E i sent content resp :
  full_prompt E i = Ok content →
  post E (request (api_key_of i) (payload_for i content)) = Ok resp →
  ¬ success_status resp →
  fst (run E i sent)
  = Ok [("result", PyNone); ("error", PyStr (status_error resp)); ("usage", PyDict [])].
Proof.
  intros Hprompt Hpost Hstatus.
  rewrite (run_response E i sent content resp Hprompt Hpost).
  by rewrite (raise_for_status_failure resp Hstatus).
Qed.

(** A 429 whose body is a completion. *)
Lemma status_checked_before_body_witness :
  fst (run {| post := λ _, Ok throttled; loads := decode_literal;
              str_raises := str_error; dumps := dumps_indent_2 |}
         (AnalyzeResume "sk-or-1" "Rate this resume." "Jane Doe, welder" "{}" None None) [])
  = Ok [("result", PyNone); ("error", PyStr (status_error throttled));
        ("usage", PyDict [])].
Proof.
  eapply (status_checked_before_body
            {| post := λ _, Ok throttled; loads := decode_literal;
               str_raises := str_error; dumps := dumps_indent_2 |}
            (AnalyzeResume "sk-or-1" "Rate this resume." "Jane Doe, welder" "{}" None None)
            [] _ throttled).
  - reflexivity.
  - reflexivity.
  - unfold success_status. cbn. lia.
Defined.

(** X12.  A 2xx response whose body is a dict without the key [choices]
    (an error object, say) gives an envelope whose [error] is the text
    ['choices'], the [str()] of the [KeyError]: nothing else of the body
    reaches the caller. *)
Theorem missing_choices_error E i sent content data :
  full_prompt E i = Ok content →
  answered E (request (api_key_of i) (payload_for i content)) data →
  dict_get data "choices" = None →
  fst (run E i sent)
  = Ok [("result", PyNone); ("error", PyStr "'choices'"); ("usage", PyDict [])].
Proof.
  intros Hprompt Hanswered Hmissing.
  rewrite (run_answered E i sent content data Hprompt Hanswered).
  cbn [getitem]. by rewrite Hmissing.
Qed.

(** A 200 whose body is an error object. *)
Lemma missing_choices_error_witness :
  fst (run (answering [("error", PyDict [("message", PyStr "No endpoints found")])])
         (AnalyzeResume "sk-or-1" "Rate this resume." "Jane Doe, welder" "{}" None None) [])
  = Ok [("result", PyNone); ("error", PyStr "'choices'"); ("usage", PyDict [])].
Proof.
  eapply (missing_choices_error _
            (AnalyzeResume "sk-or-1" "Rate this resume." "Jane Doe, welder" "{}" None None)).
  - reflexivity.
  - eexists. split; [reflexivity|]. split; [|reflexivity]. unfold success_status. cbn. lia.
  - reflexivity.
Defined.

(** X13.  A 2xx response whose [choices] is the empty list gives an
    envelope whose [error] is [list index out of range]. *)
Theorem empty_choices_error E i sent content data :
  full_prompt E i = Ok content →
  answered E (request (api_key_of i) (payload_for i content)) data →
  dict_get data "choices" = Some (PyList []) →
  fst (run E i sent)
  = Ok [("result", PyNone); ("error", PyStr "list index out of range");
        ("usage", PyDict [])].
Proof.
  intros Hprompt Hanswered Hempty.
  rewrite (run_answered E i sent content data Hprompt Hanswered).
  cbn [getitem]. by rewrite Hempty.
Qed.

(** A 200 with no choice. *)
Lemma empty_choices_error_witness :
  fst (run (answering [("choices", PyList [])])
         (AnalyzeResume "sk-or-1" "Rate this resume." "Jane Doe, welder" "{}" None None) [])
  = Ok [("result", PyNone); ("error", PyStr "list index out of range");
        ("usage", PyDict [])].
Proof.
  eapply (empty_choices_error _
            (AnalyzeResume "sk-or-1" "Rate this resume." "Jane Doe, welder" "{}" None None)).
  - reflexivity.
  - eexists. split; [reflexivity|]. split; [|reflexivity]. unfold success_status. cbn. lia.
  - reflexivity.
Defined.

(** How the first content is reached. *)
Lemma run_first_content E i sent content data v :
  full_prompt E i = Ok content →
  answered E (request (api_key_of i) (payload_for i content)) data →
  first_content data v →
  fst (run E i sent) =
  match json_loads E v with
  | Ok result =>
      Ok (success_envelope result (default (PyDict []) (dict_get data "usage")))
  | Raise e => Ok (error_envelope e)
  end.
Proof.
  intros Hprompt Hanswered (choice & rest & message & Hchoices & Hmessage & Hcontent).
  rewrite (run_answered E i sent content data Hprompt Hanswered).
  cbn [getitem]. rewrite Hchoices.
  cbn [mbind Result_bind getitem_index lookup list_lookup getitem].
  rewrite Hmessage. cbn [mbind Result_bind getitem].
  rewrite Hcontent. cbn [mbind Result_bind].
  destruct (json_loads E v); [|done].
  cbn [mbind Result_bind get_default]. by destruct (dict_get data "usage").
Qed.

(** X14.  A first choice whose content is not a str (null, as for a
    refusal or a tool call) gives an envelope whose [error] is the
    [TypeError] of [json.loads], naming the class of the content. *)
Theorem content_not_text_error E i sent content data v :
  full_prompt E i = Ok content →
  answered E (request (api_key_of i) (payload_for i content)) data →
  first_content data v →
  (∀ s, v ≠ PyStr s) →
  fst (run E i sent)
  = Ok [("result", PyNone);
        ("error", PyStr ("the JSON object must be str, bytes or bytearray, not "
                         +:+ type_name v));
        ("usage", PyDict [])].
Proof.
  intros Hprompt Hanswered Hfirst Hother.
  rewrite (run_first_content E i sent content data v Hprompt Hanswered Hfirst).
  destruct v; try done. by destruct (Hother s).
Qed.

(** A completion whose content is null. *)
Lemma content_not_text_error_witness :
  fst (run (answering (completion PyNone))
         (AnalyzeResume "sk-or-1" "Rate this resume." "Jane Doe, welder" "{}" None None) [])
  = Ok [("result", PyNone);
        ("error", PyStr ("the JSON object must be str, bytes or bytearray, not "
                         +:+ type_name PyNone));
        ("usage", PyDict [])].
Proof.
  eapply (content_not_text_error _
            (AnalyzeResume "sk-or-1" "Rate this resume." "Jane Doe, welder" "{}" None None)).
  - reflexivity.
  - eexists. split; [reflexivity|]. split; [|reflexivity]. unfold success_status. cbn. lia.
  - eexists _, _, _. repeat split; reflexivity.
  - discriminate.
Defined.

(** X15.  When [json.loads] rejects the content of the first choice the
    envelope is the one of the failure, with [usage] the empty mapping:
    the usage the provider reported in the same body is dropped. *)
Theorem undecodable_content_drops_usage E i sent content data text e :
  full_prompt E i = Ok content →
  answered E (request (api_key_of i) (payload_for i content)) data →
  first_content data (PyStr text) →
  loads E text = Raise e →
  fst (run E i sent)
  = Ok [("result", PyNone); ("error", PyStr (exc_str e)); ("usage", PyDict [])].
Proof.
  intros Hprompt Hanswered Hfirst Hloads.
  rewrite (run_first_content E i sent content data _ Hprompt Hanswered Hfirst).
  cbn [json_loads]. by rewrite Hloads.
Qed.

(** A completion in prose, with 42 tokens reported. *)
Lemma undecodable_content_drops_usage_witness :
  fst (run (answering (completion (PyStr "Sure! Here is the JSON you asked for")))
         (AnalyzeResume "sk-or-1" "Rate this resume." "Jane Doe, welder" "{}" None None) [])
  = Ok [("result", PyNone);
        ("error", PyStr (exc_str (Raised "JSONDecodeError"
                                    "Expecting value: line 1 column 1 (char 0)")));
        ("usage", PyDict [])].
Proof.
  eapply (undecodable_content_drops_usage _
            (AnalyzeResume "sk-or-1" "Rate this resume." "Jane Doe, welder" "{}" None None)).
  - reflexivity.
  - eexists. split; [reflexivity|]. split; [|reflexivity]. unfold success_status. cbn. lia.
  - eexists _, _, _. repeat split; reflexivity.
  - reflexivity.
Defined.

(** X16.  On the success path the envelope holds what [json.loads] made
    of the content of the first choice (further choices are not read),
    a null [error], and as [usage] the value of the key [usage] of the
    body as it is, or the empty mapping when the body has no such key. *)
Theorem success_envelope_from_first_choice E i sent content data text result :
  full_prompt E i = Ok content →
  answered E (request (api_key_of i) (payload_for i content)) data →
  first_content data (PyStr text) →
  loads E text = Ok result →
  fst (run E i sent)
  = Ok [("result", result); ("error", PyNone);
        ("usage", match dict_get data "usage" with
                  | Some usage => usage
                  | None => PyDict []
                  end)].
Proof.
  intros Hprompt Hanswered Hfirst Hloads.
  rewrite (run_first_content E i sent content data _ Hprompt Hanswered Hfirst).
  cbn [json_loads]. by rewrite Hloads.
Qed.

(** Two choices and no usage. *)
Lemma success_envelope_from_first_choice_witness :
  fst (run (answering
              [("choices",
                PyList [PyDict [("message", PyDict [("content", PyStr "true")])];
                        PyDict [("message", PyDict [("content", PyStr "false")])]])])
         (AnalyzeResume "sk-or-1" "Rate this resume." "Jane Doe, welder" "{}" None None) [])
  = Ok [("result", PyBool true); ("error", PyNone);
        ("usage", match dict_get
                          [("choices",
                            PyList [PyDict [("message", PyDict [("content", PyStr "true")])];
                                    PyDict [("message",
                                             PyDict [("content", PyStr "false")])]])]
                          "usage" with
                  | Some usage => usage
                  | None => PyDict []
                  end)].
Proof.
  eapply (success_envelope_from_first_choice _
            (AnalyzeResume "sk-or-1" "Rate this resume." "Jane Doe, welder" "{}" None None)).
  - reflexivity.
  - eexists. split; [reflexivity|]. split; [|reflexivity]. unfold success_status. cbn. lia.
  - eexists _, _, _. repeat split; reflexivity.
  - reflexivity.
Defined.

End GatewayMore.

(* ===================================================================== *)
(** * More on the tools                                                    *)
(* ===================================================================== *)

Module ToolsMore.
Import Py Tools Contract Coverage StringFacts ToolsFacts.
Local Set Warnings "-clear-no-such-hyp".

Lemma lookup_key_Some_elem_of {V} (l : list (string * V)) key v :
  lookup_key l key = Some v → key ∈ map fst l.
Proof.
  induction l as [|[k x] l IH]; cbn; [done|].
  destruct (String.eqb_spec k key) as [->|_]; [left|right; auto].
Qed.

Lemma bad_keyword_None_inv fname filled names kwargs :
  bad_keyword fname filled names kwargs = None →
  ∀ kw, kw ∈ map fst kwargs → kw ∈ names ∧ kw ≠ filled.
Proof.
  induction kwargs as [|[kw v] kwargs IH]; cbn; [by intros _ ? ?%elem_of_nil|].
  destruct (mem kw names) eqn:Hmem; cbn; [|done].
  destruct (String.eqb_spec kw filled) as [|Hne]; [done|].
  intros Hrest kw' [->|Hin]%elem_of_cons; [|by apply IH].
  split; [by apply mem_elem_of|done].
Qed.

(** A call with exactly the declared keywords returns. *)
Lemma call_fits name d candidate_id kwargs :
  lookup_key TOOL_REGISTRY name = Some d →
  (∀ p, p ∈ map fst kwargs ↔ p ∈ keyword_parameters d) →
  ∃ outcome, call (function d) candidate_id kwargs = Ok outcome.
Proof.
  intros Hd Hdecl.
  by_registry Hd; vm_compute keyword_parameters in Hdecl;
    unfold call; cbn [function func_name signature hd];
    (rewrite bad_keyword_fits by keyword_fits Hdecl).
  - keyword_value Hdecl kwargs "assessment_type". eauto.
  - keyword_value Hdecl kwargs "department".
    keyword_value Hdecl kwargs "reason". eauto.
  - keyword_value Hdecl kwargs "info_needed". eauto.
  - keyword_value Hdecl kwargs "reason". eauto.
  - keyword_value Hdecl kwargs "concern". eauto.
  - keyword_value Hdecl kwargs "template". eauto.
  - eauto.
Qed.

(** The keywords of a call that returns are the declared ones. *)
Lemma call_Ok_fits name d candidate_id kwargs outcome :
  lookup_key TOOL_REGISTRY name = Some d →
  call (function d) candidate_id kwargs = Ok outcome →
  ∀ p, p ∈ map fst kwargs ↔ p ∈ keyword_parameters d.
Proof.
  intros Hd Hcall p.
  by_registry Hd; vm_compute keyword_parameters;
    unfold call in Hcall; cbn [function func_name signature hd] in Hcall;
    (destruct (bad_keyword _ _ _ _) eqn:Hbad; [done|]);
    pose proof (bad_keyword_None_inv _ _ _ _ Hbad p) as Hfit;
    repeat case_match; try done;
    rewrite ?elem_of_cons, ?elem_of_nil in *;
    (split;
     [intros Hin; destruct (Hfit Hin) as [Hnames Hne]; naive_solver
     |intros Hp;
      repeat match goal with
             | H : _ ∨ _ |- _ => destruct H as [->|H]
             | H : False |- _ => destruct H
             end;
      eauto using lookup_key_Some_elem_of]).
Qed.

(** Whatever fails in a call is a [TypeError]. *)
Lemma call_Raise_TypeError f candidate_id kwargs e :
  call f candidate_id kwargs = Raise e → ∃ msg, e = TypeError msg.
Proof.
  unfold call.
  assert (Hbad : ∀ fname filled names x,
             bad_keyword fname filled names kwargs = Some x → ∃ msg, x = TypeError msg).
  { intros fname filled names. induction kwargs as [|[kw v] kwargs IH]; cbn; [done|].
    intros x. repeat case_match; try intros [= <-]; eauto. }
  destruct (bad_keyword _ _ _ _) as [x|] eqn:Hx.
  - intros [= <-]. eauto.
  - destruct f; repeat case_match; intros [= <-]; cbn; eauto.
Qed.

(** X17.  The parameter schema of a descriptor says exactly which calls
    its function accepts: a call through the registry returns an outcome
    when its keywords are the declared parameters other than
    [candidate_id], and raises [TypeError] for any other set of
    keywords (one missing, one unknown, or [candidate_id] given twice). *)
Theorem call_accepted_iff_declared name d candidate_id kwargs :
  lookup_key TOOL_REGISTRY name = Some d →
  match call (function d) candidate_id kwargs with
  | Ok _ => ∀ p, p ∈ map fst kwargs ↔ p ∈ keyword_parameters d
  | Raise e =>
      (∃ msg, e = TypeError msg) ∧
      ¬ (∀ p, p ∈ map fst kwargs ↔ p ∈ keyword_parameters d)
  end.
Proof.
  intros Hd.
  destruct (call (function d) candidate_id kwargs) as [outcome|e] eqn:Hcall.
  - by eapply call_Ok_fits.
  - split; [by eapply call_Raise_TypeError|].
    intros Hdecl. destruct (call_fits name d candidate_id kwargs Hd Hdecl). congruence.
Qed.

(** [route_to_department] called without its [reason]. *)
Lemma call_accepted_iff_declared_witness :
  match call (Def3 "route_to_department" "candidate_id" "department" "reason"
                route_to_department) "c-17" [("department", "internship")] with
  | Ok _ =>
      ∀ p, p ∈ map fst [("department", "internship")]
           ↔ p ∈ ["department"; "reason"]
  | Raise e =>
      (∃ msg, e = TypeError msg) ∧
      ¬ (∀ p, p ∈ map fst [("department", "internship")]
              ↔ p ∈ ["department"; "reason"])
  end.
Proof.
  apply (call_accepted_iff_declared "route_to_department"
           {| function := Def3 "route_to_department" "candidate_id" "department" "reason"
                               route_to_department;
              description := "Route candidate to a specific department or hiring manager for further review";
              parameters :=
                [("candidate_id", "string - The candidate's ID");
                 ("department", "string - Department name: 'senior_engineering', 'junior_engineering', 'internship'");
                 ("reason", "string - Reason for routing to this department")] |}
           "c-17" [("department", "internship")]).
  reflexivity.
Defined.

(** X18.  An outcome echoes the arguments of the call: every declared
    parameter other than [candidate_id] is a key of the outcome, with the
    value the call passed for it. *)
Theorem outcome_echoes_parameters name d candidate_id kwargs outcome p v :
  lookup_key TOOL_REGISTRY name = Some d →
  call (function d) candidate_id kwargs = Ok outcome →
  p ∈ keyword_parameters d →
  lookup_key kwargs p = Some v →
  dict_get outcome p = Some (PyStr v).
Proof.
  intros Hd Hcall Hp Hv.
  by_registry Hd; vm_compute keyword_parameters in Hp;
    unfold call in Hcall; cbn [function func_name signature hd] in Hcall;
    (destruct (bad_keyword _ _ _ _); [done|]);
    repeat case_match; try done; injection Hcall as <-;
    rewrite ?elem_of_cons, ?elem_of_nil in Hp;
    repeat match goal with
           | H : _ ∨ _ |- _ => destruct H as [->|H]
           | H : False |- _ => destruct H
           end;
    cbn; congruence.
Qed.

(** The department of a routing. *)
Lemma outcome_echoes_parameters_witness :
  dict_get (route_to_department "c-17" "internship" "second year student") "department"
  = Some (PyStr "internship").
Proof.
  apply (outcome_echoes_parameters "route_to_department"
           {| function := Def3 "route_to_department" "candidate_id" "department" "reason"
                               route_to_department;
              description := "Route candidate to a specific department or hiring manager for further review";
              parameters :=
                [("candidate_id", "string - The candidate's ID");
                 ("department", "string - Department name: 'senior_engineering', 'junior_engineering', 'internship'");
                 ("reason", "string - Reason for routing to this department")] |}
           "c-17" [("reason", "second year student"); ("department", "internship")]).
  - reflexivity.
  - reflexivity.
  - vm_compute. apply (list_elem_of_here "department").
  - reflexivity.
Defined.

(** X19.  [done] is the one action whose outcome is final: the outcome of
    a registered action has the key [final], with value [True], when the
    action is [done], and has no such key for any other action. *)
Theorem only_done_is_final name d candidate_id kwargs outcome :
  lookup_key TOOL_REGISTRY name = Some d →
  call (function d) candidate_id kwargs = Ok outcome →
  dict_get outcome "final" = if String.eqb name "done" then Some (PyBool true) else None.
Proof.
  intros Hd Hcall.
  by_registry Hd;
    unfold call in Hcall; cbn [function func_name signature hd] in Hcall;
    (destruct (bad_keyword _ _ _ _); [done|]);
    repeat case_match; try done; by injection Hcall as <-.
Qed.

(** The outcome of [done]. *)
Lemma only_done_is_final_witness :
  dict_get (done "c-17") "final"
  = (if String.eqb "done" "done" then Some (PyBool true) else None).
Proof.
  apply (only_done_is_final "done"
           {| function := Def1 "done" "candidate_id" done;
              description := "Signal that processing is complete for this candidate. Call this when no further automated actions are needed.";
              parameters := [("candidate_id", "string - The candidate's ID")] |}
           "c-17" []).
  - reflexivity.
  - reflexivity.
Defined.

Lemma occurs_in_suffix s before : occurs_in s (before +:+ s).
Proof. exists before, "". by rewrite app_nil_r. Qed.

Lemma occurs_in_app_r s before text : occurs_in s text → occurs_in s (before +:+ text).
Proof. intros (b & a & ->). exists (before +:+ b), a. by rewrite app_assoc. Qed.

Lemma occurs_in_app_l s text after : occurs_in s text → occurs_in s (text +:+ after).
Proof. intros (b & a & ->). exists b, (a +:+ after). by rewrite !app_assoc. Qed.

(** X20.  The message of every outcome is a str in which the candidate's
    ID occurs. *)
Theorem message_names_candidate name d candidate_id kwargs outcome :
  lookup_key TOOL_REGISTRY name = Some d →
  call (function d) candidate_id kwargs = Ok outcome →
  ∃ message, dict_get outcome "message" = Some (PyStr message)
             ∧ occurs_in candidate_id message.
Proof.
  intros Hd Hcall.
  by_registry Hd;
    unfold call in Hcall; cbn [function func_name signature hd] in Hcall;
    (destruct (bad_keyword _ _ _ _); [done|]);
    repeat case_match; try done; injection Hcall as <-.
  - eexists. split; [reflexivity|]. do 2 apply occurs_in_app_r. apply occurs_in_suffix.
  - eexists. split; [reflexivity|].
    apply occurs_in_app_r, occurs_in_app_l, occurs_in_suffix with (before := "").
  - eexists. split; [reflexivity|]. apply occurs_in_suffix.
  - eexists. split; [reflexivity|]. apply occurs_in_suffix.
  - eexists. split; [reflexivity|].
    apply occurs_in_app_r, occurs_in_app_l, occurs_in_suffix with (before := "").
  - eexists. split; [reflexivity|]. apply occurs_in_suffix.
  - eexists. split; [reflexivity|]. apply occurs_in_suffix.
Qed.

(** The message of a rejection. *)
Lemma message_names_candidate_witness :
  ∃ message,
    dict_get (reject_application "c-17" "skills mismatch") "message" = Some (PyStr message)
    ∧ occurs_in "c-17" message.
Proof.
  apply (message_names_candidate "reject_application"
           {| function := Def2 "reject_application" "candidate_id" "reason" reject_application;
              description := "Reject the candidate's application with a reason";
              parameters :=
                [("candidate_id", "string - The candidate's ID");
                 ("reason", "string - Reason for rejection (be professional and constructive)")] |}
           "c-17" [("reason", "skills mismatch")]).
  - reflexivity.
  - reflexivity.
Defined.

End ToolsMore.
